(** * The 1h strategy: trade-window generation and outcome metrics

    A shallow embedding of [generate_trades.py] and [analyze_trades.py].

    Modelling conventions.
    - A pandas [DataFrame] is the list of its rows, in row order; a column
      is a record field.  [df.loc[mask]] is [filter]; [.iloc[0]] is the head.
    - Prices are the finite reals of the data model, embedded as exact
      rationals ([Q]); rounding and NaN cells are outside the model.
      Equalities between computed prices are stated up to [Qeq].
    - A timestamp is a UTC instant in whole seconds since the epoch; the
      calendar date is the day number and the hour is the hour of that day.
    - Python exceptions are values of [exn], carried by [result]. *)

From Stdlib Require Import List ZArith QArith Qminmax Lia Bool String.
From Stdlib Require Import Sorted Permutation Lqa.
Import ListNotations.

Open Scope Z_scope.

(** ** Exceptions and fallible computations *)

(** The classes of the exceptions raised.  An exception of a subclass is
    its class here: [ValueError] also stands for pandas' [EmptyDataError],
    which derives from it. *)
Inductive exn : Type :=
| FileNotFoundError
| ValueError
| IndexError
| ZeroDivisionError.

Inductive result (A : Type) : Type :=
| Ok (a : A)
| Raise (e : exn).

Arguments Ok {A} a.
Arguments Raise {A} e.

Definition bind {A B : Type} (m : result A) (k : A -> result B) : result B :=
  match m with
  | Ok a => k a
  | Raise e => Raise e
  end.

Notation "x <- m ;; k" := (bind m (fun x => k))
  (at level 61, m at next level, right associativity).

(** A [for] loop whose body may raise: the accumulator is threaded from
    left to right and the first exception aborts the loop. *)
Fixpoint for_each {A S : Type} (body : S -> A -> result S) (xs : list A) (acc : S)
  : result S :=
  match xs with
  | [] => Ok acc
  | x :: rest => acc' <- body acc x ;; for_each body rest acc'
  end.

(** Indexing a Python list, [days[idx]], and the first row of a frame,
    [df.iloc[0]]: both raise when the position does not exist. *)
Definition getitem {A : Type} (l : list A) (idx : nat) : result A :=
  match nth_error l idx with
  | Some x => Ok x
  | None => Raise IndexError
  end.

Definition iloc0 {A : Type} (l : list A) : result A :=
  match l with
  | x :: _ => Ok x
  | [] => Raise IndexError
  end.

(** ** Numbers *)

(** Strict comparison of two prices, as a boolean. *)
Definition Qlt_bool (x y : Q) : bool := negb (Qle_bool y x).

(** Python's builtin [max(a, b)]: the first argument unless the second is
    strictly greater. *)
Definition py_max (a b : Q) : Q := if Qlt_bool a b then b else a.

(** Python's builtin [min(a, b)]: the first argument unless the second is
    strictly smaller. *)
Definition py_min (a b : Q) : Q := if Qlt_bool b a then b else a.

(** Division of two Python floats: a zero divisor raises. *)
Definition py_div (a b : Q) : result Q :=
  if Qeq_bool b 0 then Raise ZeroDivisionError else Ok (a / b)%Q.

(** Element-wise division of a float column by a scalar (numpy): a zero
    divisor raises nothing and leaves a non-finite cell (inf or NaN),
    written [None]. *)
Definition np_div (a b : Q) : option Q :=
  if Qeq_bool b 0 then None else Some (a / b)%Q.

(** [Series.max()] and [Series.min()] of a column with at least one cell. *)
Definition series_max (x : Q) (xs : list Q) : Q := fold_left py_max xs x.
Definition series_min (x : Q) (xs : list Q) : Q := fold_left py_min xs x.

(** ** Timestamps *)

Definition ts_date (ts : Z) : Z := ts / 86400.
Definition ts_hour (ts : Z) : Z := (ts mod 86400) / 3600.

(** ** Data model shared by the two scripts *)

Inductive Direction : Type := buy | short.

Definition Direction_eqb (a b : Direction) : bool :=
  match a, b with
  | buy, buy | short, short => true
  | _, _ => false
  end.

(** One row of the loaded price table. *)
Record PriceBar : Type := mkPriceBar {
  timestamp : Z;
  date : Z;
  hour : Z;
  open : Q;
  high : Q;
  low : Q;
  close : Q
}.

(** One row of a trade window: the bar and the columns that
    [build_trade_window] adds to it. *)
Record WindowRow : Type := mkWindowRow {
  bar : PriceBar;
  col_signal_day : Z;
  col_trade_day : Z;
  col_direction : Direction;
  col_entry_price : Q;
  hours_from_entry : Z;
  price_delta_from_entry : Q;
  return_pct_from_entry : option Q
}.

(** ** generate_trades.py *)

Module GenerateTrades.

Record TradeWindow : Type := mkTradeWindow {
  signal_day : Z;
  trade_day : Z;
  direction : Direction;
  entry_price : Q;
  data : list WindowRow
}.

(** The CSV file behind [load_price_data]: its header and its rows.  The
    cells of a row are read only once the header check has passed; [time]
    is the parsed instant of the [time] cell. *)
Record CsvRow : Type := mkCsvRow {
  time : Z;
  csv_open : Q;
  csv_high : Q;
  csv_low : Q;
  csv_close : Q
}.

Record CsvFile : Type := mkCsvFile {
  columns : list string;
  rows : list CsvRow
}.

Definition FileSystem : Type := string -> option CsvFile.

Definition required : list string :=
  ["time"; "open"; "high"; "low"; "close"]%string.

(** [required.difference(df.columns)] *)
Definition difference (xs ys : list string) : list string :=
  filter (fun c => negb (existsb (String.eqb c) ys)) xs.

(** [df.sort_values("timestamp")]: rows in ascending order of timestamp.
    pandas sorts with numpy's default quicksort, which is not stable: the
    code does not fix the order in which rows of equal timestamp come
    out.  That order is given by [tie_order], any rearrangement of the
    rows, applied before a sort that keeps equal timestamps in place;
    every sorted rearrangement of the frame arises in this way. *)
Fixpoint insert_row (r : CsvRow) (sorted : list CsvRow) : list CsvRow :=
  match sorted with
  | [] => [r]
  | r' :: rest =>
      if time r <=? time r' then r :: sorted else r' :: insert_row r rest
  end.

Definition sort_values (tie_order : list CsvRow -> list CsvRow)
    (df : list CsvRow) : list CsvRow :=
  fold_right insert_row [] (tie_order df).

(** The [date] and [hour] columns derived from the timestamp of a row. *)
Definition derive (r : CsvRow) : PriceBar :=
  {| timestamp := time r;
     date := ts_date (time r);
     hour := ts_hour (time r);
     open := csv_open r;
     high := csv_high r;
     low := csv_low r;
     close := csv_close r |}.

Definition load_price_data (tie_order : list CsvRow -> list CsvRow)
    (fs : FileSystem) (csv_path : string) : result (list PriceBar) :=
  match fs csv_path with
  | None => Raise FileNotFoundError
  | Some df =>
      match difference required (columns df) with
      | _ :: _ => Raise ValueError
      | [] => Ok (map derive (sort_values tie_order (rows df)))
      end
  end.

Definition determine_signal (day_df : list PriceBar) : option Direction :=
  let hour_23 := filter (fun r => hour r =? 23) day_df in
  match hour_23 with
  | [] => None
  | row :: _ =>
      if Qlt_bool (close row) (open row) then Some buy
      else if Qlt_bool (open row) (close row) then Some short
      else None
  end.

(** The columns written on every row of the slice. *)
Definition annotate (signal_day trade_day : Z) (direction : Direction)
    (entry_price : Q) (entry_hour : Z) (r : PriceBar) : WindowRow :=
  let price_delta :=
    if Direction_eqb direction buy then (close r - entry_price)%Q
    else (entry_price - close r)%Q in
  {| bar := r;
     col_signal_day := signal_day;
     col_trade_day := trade_day;
     col_direction := direction;
     col_entry_price := entry_price;
     hours_from_entry := hour r - entry_hour;
     price_delta_from_entry := price_delta;
     return_pct_from_entry :=
       option_map (fun x => (x * 100)%Q) (np_div price_delta entry_price) |}.

Definition in_window (entry_hour exit_hour : Z) (r : PriceBar) : bool :=
  (entry_hour <=? hour r) && (hour r <=? exit_hour).

Definition build_trade_window (trade_df : list PriceBar) (signal_day : Z)
    (direction : Direction) (entry_hour exit_hour : Z) : option TradeWindow :=
  let entry_rows := filter (fun r => hour r =? entry_hour) trade_df in
  let exit_rows := filter (fun r => hour r =? exit_hour) trade_df in
  match entry_rows, exit_rows with
  | [], _ => None
  | _, [] => None
  | entry_row :: _, _ :: _ =>
      let window := filter (in_window entry_hour exit_hour) trade_df in
      match window with
      | [] => None
      | first :: _ =>
          let entry_price := open entry_row in
          let trade_day := date first in
          Some {| signal_day := signal_day;
                  trade_day := trade_day;
                  direction := direction;
                  entry_price := entry_price;
                  data := map (annotate signal_day trade_day direction
                                 entry_price entry_hour) window |}
      end
  end.

(** [df.groupby("date", sort=True)]: the distinct dates in ascending order,
    each with its rows in their original order. *)
Fixpoint insert_key (k : Z) (ks : list Z) : list Z :=
  match ks with
  | [] => [k]
  | k' :: rest =>
      if k <? k' then k :: ks
      else if k =? k' then ks
      else k' :: insert_key k rest
  end.

Definition group_keys (df : list PriceBar) : list Z :=
  fold_right insert_key [] (map date df).

Definition iter_daily_data (df : list PriceBar) : list (list PriceBar) :=
  map (fun k => filter (fun r => date r =? k) df) (group_keys df).

(** One iteration of the loop of [generate_trade_windows]. *)
Definition loop_body (days : list (list PriceBar)) (entry_hour exit_hour : Z)
    (trade_windows : list TradeWindow) (idx : nat) : result (list TradeWindow) :=
  signal_day_df <- getitem days idx ;;
  trade_day_df <- getitem days (idx + 1)%nat ;;
  first <- iloc0 signal_day_df ;;
  let signal_day := date first in
  match determine_signal signal_day_df with
  | None => Ok trade_windows
  | Some direction =>
      match build_trade_window trade_day_df signal_day direction
              entry_hour exit_hour with
      | Some trade_window => Ok (trade_windows ++ [trade_window])
      | None => Ok trade_windows
      end
  end.

Definition generate_trade_windows (df : list PriceBar) (entry_hour exit_hour : Z)
  : result (list TradeWindow) :=
  let days := iter_daily_data df in
  for_each (loop_body days entry_hour exit_hour)
           (seq 0 (List.length days - 1)%nat) [].

(** [main], up to the windows it hands to [write_trade_windows]: the checks
    on the two hours come first, then the load and the generation. *)
Definition main (tie_order : list CsvRow -> list CsvRow) (fs : FileSystem)
    (data_path : string) (entry_hour exit_hour : Z)
  : result (list TradeWindow) :=
  if negb ((0 <=? entry_hour) && (entry_hour <=? 23)) then Raise ValueError
  else if negb ((0 <=? exit_hour) && (exit_hour <=? 23)) then Raise ValueError
  else if exit_hour <? entry_hour then Raise ValueError
  else
    df <- load_price_data tie_order fs data_path ;;
    generate_trade_windows df entry_hour exit_hour.

End GenerateTrades.

(** ** analyze_trades.py *)

Module AnalyzeTrades.

Record TradeMetrics : Type := mkTradeMetrics {
  trade_day : Z;
  signal_day : Z;
  direction : Direction;
  entry_price : Q;
  exit_price : Q;
  final_return : Q;
  final_return_pct : Q;
  max_return : Q;
  max_return_pct : Q;
  max_drawdown : Q;
  max_drawdown_pct : Q;
  hours_captured : nat
}.

(** [df[name]] for a price column, after the first row. *)
Definition column (f : PriceBar -> Q) (df : list WindowRow) : list Q :=
  map (fun r => f (bar r)) df.

(** [(value / entry_price) * 100.0] on Python floats. *)
Definition pct (value entry_price : Q) : result Q :=
  q <- py_div value entry_price ;; Ok (q * 100)%Q.

Definition compute_buy_metrics (df : list WindowRow) : result TradeMetrics :=
  match df with
  | [] => Raise IndexError
  | first :: rest =>
      let entry_price := col_entry_price first in
      let exit_price := close (bar (last rest first)) in
      let max_price :=
        py_max (series_max (close (bar first)) (column close rest))
               (series_max (high (bar first)) (column high rest)) in
      let min_price := series_min (low (bar first)) (column low rest) in
      let max_return := py_max 0 (max_price - entry_price)%Q in
      let max_drawdown := py_max 0 (entry_price - min_price)%Q in
      let final_return := (exit_price - entry_price)%Q in
      let trade_day := col_trade_day first in
      let signal_day := col_signal_day first in
      final_return_pct <- pct final_return entry_price ;;
      max_return_pct <- pct max_return entry_price ;;
      max_drawdown_pct <- pct max_drawdown entry_price ;;
      Ok {| trade_day := trade_day;
            signal_day := signal_day;
            direction := buy;
            entry_price := entry_price;
            exit_price := exit_price;
            final_return := final_return;
            final_return_pct := final_return_pct;
            max_return := max_return;
            max_return_pct := max_return_pct;
            max_drawdown := max_drawdown;
            max_drawdown_pct := max_drawdown_pct;
            hours_captured := List.length df |}
  end.

Definition compute_short_metrics (df : list WindowRow) : result TradeMetrics :=
  match df with
  | [] => Raise IndexError
  | first :: rest =>
      let entry_price := col_entry_price first in
      let exit_price := close (bar (last rest first)) in
      let min_price :=
        py_min (series_min (close (bar first)) (column close rest))
               (series_min (low (bar first)) (column low rest)) in
      let max_price :=
        py_max (series_max (close (bar first)) (column close rest))
               (series_max (high (bar first)) (column high rest)) in
      let max_return := py_max 0 (entry_price - min_price)%Q in
      let max_drawdown := py_max 0 (max_price - entry_price)%Q in
      let final_return := (entry_price - exit_price)%Q in
      let trade_day := col_trade_day first in
      let signal_day := col_signal_day first in
      final_return_pct <- pct final_return entry_price ;;
      max_return_pct <- pct max_return entry_price ;;
      max_drawdown_pct <- pct max_drawdown entry_price ;;
      Ok {| trade_day := trade_day;
            signal_day := signal_day;
            direction := short;
            entry_price := entry_price;
            exit_price := exit_price;
            final_return := final_return;
            final_return_pct := final_return_pct;
            max_return := max_return;
            max_return_pct := max_return_pct;
            max_drawdown := max_drawdown;
            max_drawdown_pct := max_drawdown_pct;
            hours_captured := List.length df |}
  end.

(** The choice made by [gather_trade_metrics]. *)
Definition compute_fn (direction : Direction)
  : list WindowRow -> result TradeMetrics :=
  if Direction_eqb direction buy then compute_buy_metrics
  else compute_short_metrics.

Record DirectionSummary : Type := mkDirectionSummary {
  summary_direction : Direction;
  trade_count : nat;
  sum_final_return : Q;
  sum_max_return : Q;
  sum_max_drawdown : Q;
  avg_final_return : Q;
  avg_max_return : Q;
  avg_max_drawdown : Q
}.

(** Python's [sum]: starts from 0 and adds from left to right. *)
Definition py_sum (xs : list Q) : Q := fold_left Qplus xs 0%Q.

(** [total / count if count else 0.0] *)
Definition average (total : Q) (count : nat) : result Q :=
  if (count =? 0)%nat then Ok 0%Q
  else py_div total (inject_Z (Z.of_nat count)).

Definition summarize_metrics (rows : list TradeMetrics) (direction : Direction)
  : result DirectionSummary :=
  let count := List.length rows in
  let sum_final := py_sum (map final_return rows) in
  let sum_max_return := py_sum (map max_return rows) in
  let sum_max_drawdown := py_sum (map max_drawdown rows) in
  avg_final <- average sum_final count ;;
  avg_max_return <- average sum_max_return count ;;
  avg_max_drawdown <- average sum_max_drawdown count ;;
  Ok {| summary_direction := direction;
        trade_count := count;
        sum_final_return := sum_final;
        sum_max_return := sum_max_return;
        sum_max_drawdown := sum_max_drawdown;
        avg_final_return := avg_final;
        avg_max_return := avg_max_return;
        avg_max_drawdown := avg_max_drawdown |}.

(** A persisted trade window: the header of the CSV file and its rows.  As
    for the price file, the cells of a row are read only after the checks
    of [load_trade_csv]. *)
Record TradeCsv : Type := mkTradeCsv {
  trade_columns : list string;
  trade_rows : list WindowRow
}.

Definition TradeFiles : Type := string -> option TradeCsv.

Definition trade_required : list string :=
  ["open"; "high"; "low"; "close"; "direction"; "entry_price";
   "trade_day"; "signal_day"]%string.

(** [pd.read_csv] raises [FileNotFoundError] on a path that does not
    exist; the two checks of [load_trade_csv] raise [ValueError]. *)
Definition load_trade_csv (fs : TradeFiles) (path : string)
  : result (list WindowRow) :=
  match fs path with
  | None => Raise FileNotFoundError
  | Some df =>
      match trade_rows df with
      | [] => Raise ValueError
      | _ :: _ =>
          match GenerateTrades.difference trade_required (trade_columns df) with
          | _ :: _ => Raise ValueError
          | [] => Ok (trade_rows df)
          end
      end
  end.

Section Gather.

(** Python's [sorted] on paths.  Its order depends on the platform's path
    flavour; it is kept as a parameter. *)
Variable sorted : list string -> list string.

Definition gather_trade_metrics (fs : TradeFiles) (paths : list string)
    (direction : Direction) : result (list TradeMetrics) :=
  let compute_fn := compute_fn direction in
  for_each
    (fun metrics path =>
       df <- load_trade_csv fs path ;;
       m <- compute_fn df ;;
       Ok (metrics ++ [m]))
    (sorted paths) [].

(** [main], from the two directory listings on, up to the rows of the
    summary table. *)
Definition main (fs : TradeFiles) (buy_paths short_paths : list string)
  : result (list DirectionSummary) :=
  buy_metrics <- gather_trade_metrics fs buy_paths buy ;;
  short_metrics <- gather_trade_metrics fs short_paths short ;;
  buy_summary <- summarize_metrics buy_metrics buy ;;
  short_summary <- summarize_metrics short_metrics short ;;
  Ok [buy_summary; short_summary].

End Gather.

End AnalyzeTrades.

(** ** visualize_distribution.py *)

Module VisualizeDistribution.

Section Metrics.

(** The cells of a metrics row other than its direction. *)
Variable Cells : Type.

(** A row of a metrics table: its direction cell, absent when the table
    has no direction column, and its other cells. *)
Record MetricsRow : Type := mkMetricsRow {
  direction_cell : option string;
  other_cells : Cells
}.

Record MetricsCsv : Type := mkMetricsCsv {
  metrics_columns : list string;
  metrics_rows : list MetricsRow
}.

(** The analysis directory: the file, if any, under each file name. *)
Definition AnalysisDir : Type := string -> option MetricsCsv.

(** [pd.read_csv] of an existing metrics file.  A file with no column
    to parse, such as a file of zero bytes, raises [EmptyDataError]; a
    file with a header is read, with or without rows under it. *)
Definition read_csv (file : MetricsCsv) : result MetricsCsv :=
  match metrics_columns file with
  | [] => Raise ValueError
  | _ :: _ => Ok file
  end.

(** One turn of the loop over the two sides. *)
Definition read_side (analysis_dir : AnalysisDir)
    (frames : list (list MetricsRow)) (side : string)
  : result (list (list MetricsRow)) :=
  match analysis_dir (side ++ "_metrics.csv")%string with
  | None => Ok frames
  | Some file =>
      df <- read_csv file ;;
      let df' :=
        if negb (match metrics_rows df with [] => true | _ => false end)
           && negb (existsb (String.eqb "direction") (metrics_columns df))
        then map (fun r => {| direction_cell := Some side;
                              other_cells := other_cells r |})
                 (metrics_rows df)
        else metrics_rows df in
      Ok (frames ++ [df'])
  end.

Definition load_metrics (analysis_dir : AnalysisDir)
  : result (list MetricsRow) :=
  frames <- for_each (read_side analysis_dir) ["buy"; "short"]%string [] ;;
  match frames with
  | [] => Raise FileNotFoundError
  | _ :: _ => Ok (List.concat frames)
  end.

End Metrics.

Arguments direction_cell {Cells} _.
Arguments other_cells {Cells} _.
Arguments metrics_columns {Cells} _.
Arguments metrics_rows {Cells} _.
Arguments mkMetricsRow {Cells} _ _.
Arguments mkMetricsCsv {Cells} _ _.
Arguments load_metrics {Cells} _.

End VisualizeDistribution.

(** ** Vocabulary of the statements *)

(** No row of the frame is at hour [h]. *)
Definition lacks_hour (h : Z) (df : list PriceBar) : Prop :=
  forall r, In r df -> hour r <> h.

(** [b] is the first row of the frame, in row order, at hour [h]. *)
Definition first_at_hour (h : Z) (df : list PriceBar) (b : PriceBar) : Prop :=
  exists before after,
    df = before ++ b :: after /\ hour b = h /\ lacks_hour h before.

(** [v] is the largest (smallest) value of a column. *)
Definition is_max_of (v : Q) (s : list Q) : Prop :=
  (exists x, In x s /\ (x == v)%Q) /\ forall x, In x s -> (x <= v)%Q.

Definition is_min_of (v : Q) (s : list Q) : Prop :=
  (exists x, In x s /\ (x == v)%Q) /\ forall x, In x s -> (v <= x)%Q.

(** A day's partition of a loaded series: every row carries the date and
    hour of its timestamp, all rows share one date, and the rows are in
    ascending order of timestamp. *)
Definition derived_fields (b : PriceBar) : Prop :=
  date b = ts_date (timestamp b) /\ hour b = ts_hour (timestamp b).

Definition by_timestamp (a b : PriceBar) : Prop := timestamp a <= timestamp b.

Definition by_time (a b : GenerateTrades.CsvRow) : Prop :=
  GenerateTrades.time a <= GenerateTrades.time b.

Definition daily_series (df : list PriceBar) : Prop :=
  Forall derived_fields df /\
  (forall a b, In a df -> In b df -> date a = date b) /\
  StronglySorted by_timestamp df.

(** The loop iteration at position [idx] of the day list appends [w]:
    the day at [idx] gives a signal and the day after it gives the window. *)
Definition produced_at (days : list (list PriceBar)) (eh xh : Z) (idx : nat)
    (w : GenerateTrades.TradeWindow) : Prop :=
  exists signal_day_df trade_day_df first dir,
    nth_error days idx = Some signal_day_df /\
    nth_error days (S idx) = Some trade_day_df /\
    hd_error signal_day_df = Some first /\
    GenerateTrades.determine_signal signal_day_df = Some dir /\
    GenerateTrades.build_trade_window trade_day_df (date first) dir eh xh
    = Some w.

(** A bar for worked examples: the candle at instant [ts] that opens at [o]
    and closes at [c], with no wick. *)
Definition bar_at (ts : Z) (o c : Q) : PriceBar :=
  {| timestamp := ts; date := ts_date ts; hour := ts_hour ts;
     open := o; high := Qmax o c; low := Qmin o c; close := c |}.

(** Worked example: a bearish 23:00 candle on day 0, then a day 1 that has
    its 11:00 bar but no 21:00 bar. *)
Definition incomplete_day_df : list PriceBar :=
  [bar_at 82800 100 95; bar_at 126000 101 102].

(** Worked example: a bearish 23:00 candle on day 0, then a day 1 with its
    11:00 bar opening at 101 and its 21:00 bar closing at 103. *)
Definition complete_day_df : list PriceBar :=
  [bar_at 82800 100 95; bar_at 126000 101 102; bar_at 162000 102 103].

(** The window that the generation builds from [complete_day_df] with
    entry hour 11 and exit hour 21. *)
Definition complete_day_window : GenerateTrades.TradeWindow :=
  {| GenerateTrades.signal_day := 0;
     GenerateTrades.trade_day := 1;
     GenerateTrades.direction := buy;
     GenerateTrades.entry_price := 101;
     GenerateTrades.data :=
       map (GenerateTrades.annotate 0 1 buy 101 11)
           [bar_at 126000 101 102; bar_at 162000 102 103] |}.

(** Worked example: a file system with one price file, written out of
    time order. *)
Definition prices_csv : GenerateTrades.CsvFile :=
  {| GenerateTrades.columns :=
       ["time"; "open"; "high"; "low"; "close"; "Volume"]%string;
     GenerateTrades.rows :=
       [GenerateTrades.mkCsvRow 126000 101 102 101 102;
        GenerateTrades.mkCsvRow 82800 100 100 95 95] |}.

Definition prices_fs : GenerateTrades.FileSystem :=
  fun path => if String.eqb path "prices.csv" then Some prices_csv else None.

(** Worked example: a price file whose header has no close column. *)
Definition no_close_fs : GenerateTrades.FileSystem :=
  fun _ =>
    Some {| GenerateTrades.columns := ["time"; "open"; "high"; "low"]%string;
            GenerateTrades.rows :=
              [GenerateTrades.mkCsvRow 82800 100 100 95 95] |}.

(** Worked example: a price file with two rows at the same instant, the
    23:00 of day 0, one bearish and one bullish. *)
Definition tied_rows : list GenerateTrades.CsvRow :=
  [GenerateTrades.mkCsvRow 82800 100 100 95 95;
   GenerateTrades.mkCsvRow 82800 95 100 95 100].

Definition tied_fs : GenerateTrades.FileSystem :=
  fun _ =>
    Some {| GenerateTrades.columns :=
              ["time"; "open"; "high"; "low"; "close"]%string;
            GenerateTrades.rows := tied_rows |}.

(** Worked example: a bearish 23:00 candle on day 0, then a day 1 whose
    11:00 bar opens at 0 and whose 21:00 bar closes at 6. *)
Definition zero_open_df : list PriceBar :=
  [bar_at 82800 100 95; bar_at 126000 0 5; bar_at 162000 5 6].

(** Worked example: a one-bar short window entered at 101 whose bar has
    high 102, low 98 and close 100. *)
Definition short_example_row : WindowRow :=
  {| bar := {| timestamp := 126000; date := 1; hour := 11;
               open := 101; high := 102; low := 98; close := 100 |};
     col_signal_day := 0;
     col_trade_day := 1;
     col_direction := short;
     col_entry_price := 101;
     hours_from_entry := 0;
     price_delta_from_entry := 1;
     return_pct_from_entry := Some (1 / 101 * 100)%Q |}.

(** Worked example: a one-bar buy window whose recorded entry price is 0. *)
Definition zero_entry_row : WindowRow :=
  {| bar := {| timestamp := 126000; date := 1; hour := 11;
               open := 0; high := 2; low := 0; close := 1 |};
     col_signal_day := 0;
     col_trade_day := 1;
     col_direction := buy;
     col_entry_price := 0;
     hours_from_entry := 0;
     price_delta_from_entry := 1;
     return_pct_from_entry := None |}.

(** Worked example: a one-bar buy window whose bar closes below its
    recorded low. *)
Definition close_below_low_row : WindowRow :=
  {| bar := {| timestamp := 126000; date := 1; hour := 11;
               open := 101; high := 102; low := 100; close := 99 |};
     col_signal_day := 0;
     col_trade_day := 1;
     col_direction := buy;
     col_entry_price := 101;
     hours_from_entry := 0;
     price_delta_from_entry := (-2);
     return_pct_from_entry := Some ((-2) / 101 * 100)%Q |}.

(** The metrics of the trade file at [path], computed for a direction. *)
Definition measured (fs : AnalyzeTrades.TradeFiles) (dir : Direction)
    (path : string) (m : AnalyzeTrades.TradeMetrics) : Prop :=
  exists df,
    AnalyzeTrades.load_trade_csv fs path = Ok df /\
    AnalyzeTrades.compute_fn dir df = Ok m.

(** Worked example: a folder with one trade file. *)
Definition one_trade_file : AnalyzeTrades.TradeFiles :=
  fun path =>
    if String.eqb path "short/trade_a.csv"
    then Some {| AnalyzeTrades.trade_columns := AnalyzeTrades.trade_required;
                 AnalyzeTrades.trade_rows := [short_example_row] |}
    else None.

(** The rows that one side contributes to the merged metrics: none when
    its file is missing, the rows of the file when it has a direction
    column, and otherwise its rows with the side written in the direction
    cell. *)
Definition side_rows {Cells : Type}
    (analysis_dir : VisualizeDistribution.AnalysisDir Cells) (side : string)
  : list (VisualizeDistribution.MetricsRow Cells) :=
  match analysis_dir (side ++ "_metrics.csv")%string with
  | None => []
  | Some df =>
      if in_dec string_dec "direction"%string
           (VisualizeDistribution.metrics_columns df)
      then VisualizeDistribution.metrics_rows df
      else map (fun r => VisualizeDistribution.mkMetricsRow (Some side)
                           (VisualizeDistribution.other_cells r))
               (VisualizeDistribution.metrics_rows df)
  end.

(** Worked example: an analysis directory with only the short metrics, in
    a file without a direction column. *)
Definition short_only_dir : VisualizeDistribution.AnalysisDir Q :=
  fun name =>
    if String.eqb name "short_metrics.csv"
    then Some (VisualizeDistribution.mkMetricsCsv
                 ["final_return"%string]
                 [VisualizeDistribution.mkMetricsRow None 1%Q])
    else None.

(** The mathematical sum of a list of numbers. *)
Definition total (xs : list Q) : Q := fold_right Qplus 0%Q xs.

(** ** Properties of the numeric helpers *)

Lemma Qlt_bool_iff (x y : Q) : Qlt_bool x y = true <-> (x < y)%Q.
Proof.
  unfold Qlt_bool. rewrite negb_true_iff.
  destruct (Qle_bool y x) eqn:E.
  - apply Qle_bool_iff in E. split; [discriminate|].
    intro H. exfalso. exact (Qlt_not_le _ _ H E).
  - split; [intros _|reflexivity].
    apply Qnot_le_lt. intro H. apply Qle_bool_iff in H. congruence.
Qed.

Lemma Qlt_bool_false (x y : Q) : Qlt_bool x y = false <-> (y <= x)%Q.
Proof.
  unfold Qlt_bool. rewrite negb_false_iff. apply Qle_bool_iff.
Qed.

Lemma py_max_Qmax (a b : Q) : (py_max a b == Qmax a b)%Q.
Proof.
  unfold py_max. destruct (Qlt_bool a b) eqn:E.
  - apply Qlt_bool_iff in E. symmetry. apply Q.max_r. now apply Qlt_le_weak.
  - apply Qlt_bool_false in E. symmetry. now apply Q.max_l.
Qed.

Lemma py_min_Qmin (a b : Q) : (py_min a b == Qmin a b)%Q.
Proof.
  unfold py_min. destruct (Qlt_bool b a) eqn:E.
  - apply Qlt_bool_iff in E. symmetry. apply Q.min_r. now apply Qlt_le_weak.
  - apply Qlt_bool_false in E. symmetry. now apply Q.min_l.
Qed.

Lemma py_max_cases (a b : Q) : py_max a b = a \/ py_max a b = b.
Proof. unfold py_max. destruct (Qlt_bool a b); auto. Qed.

Lemma py_min_cases (a b : Q) : py_min a b = a \/ py_min a b = b.
Proof. unfold py_min. destruct (Qlt_bool b a); auto. Qed.

Lemma py_max_ge_l (a b : Q) : (a <= py_max a b)%Q.
Proof. rewrite py_max_Qmax. apply Q.le_max_l. Qed.

Lemma py_max_ge_r (a b : Q) : (b <= py_max a b)%Q.
Proof. rewrite py_max_Qmax. apply Q.le_max_r. Qed.

Lemma py_min_le_l (a b : Q) : (py_min a b <= a)%Q.
Proof. rewrite py_min_Qmin. apply Q.le_min_l. Qed.

Lemma py_min_le_r (a b : Q) : (py_min a b <= b)%Q.
Proof. rewrite py_min_Qmin. apply Q.le_min_r. Qed.

Lemma series_max_is_max (xs : list Q) :
  forall x, is_max_of (series_max x xs) (x :: xs).
Proof.
  unfold series_max. induction xs as [|y ys IH]; intro x; simpl.
  - split.
    + exists x. split; [now left|reflexivity].
    + intros z [<-|[]]. apply Qle_refl.
  - destruct (IH (py_max x y)) as [[z [Hz Hzv]] Hub]. split.
    + exists z. split; [|exact Hzv].
      destruct Hz as [Hz|Hz]; [|now right; right].
      destruct (py_max_cases x y) as [E|E]; rewrite E in Hz; subst z; simpl; auto.
    + intros u [<-|[<-|Hu]].
      * apply Qle_trans with (py_max x y); [apply py_max_ge_l|].
        apply Hub. now left.
      * apply Qle_trans with (py_max x y); [apply py_max_ge_r|].
        apply Hub. now left.
      * apply Hub. now right.
Qed.

Lemma series_min_is_min (xs : list Q) :
  forall x, is_min_of (series_min x xs) (x :: xs).
Proof.
  unfold series_min. induction xs as [|y ys IH]; intro x; simpl.
  - split.
    + exists x. split; [now left|reflexivity].
    + intros z [<-|[]]. apply Qle_refl.
  - destruct (IH (py_min x y)) as [[z [Hz Hzv]] Hlb]. split.
    + exists z. split; [|exact Hzv].
      destruct Hz as [Hz|Hz]; [|now right; right].
      destruct (py_min_cases x y) as [E|E]; rewrite E in Hz; subst z; simpl; auto.
    + intros u [<-|[<-|Hu]].
      * apply Qle_trans with (py_min x y); [|apply py_min_le_l].
        apply Hlb. now left.
      * apply Qle_trans with (py_min x y); [|apply py_min_le_r].
        apply Hlb. now left.
      * apply Hlb. now right.
Qed.

(** ** Selecting the rows at one hour *)

Section AtHour.

Variable h : Z.

Lemma filter_hour_lacks (df : list PriceBar) :
  lacks_hour h df <-> filter (fun r => hour r =? h) df = [].
Proof.
  unfold lacks_hour. induction df as [|r df IH]; simpl.
  - split; [reflexivity|intros _ r []].
  - destruct (hour r =? h) eqn:E.
    + split; [|discriminate].
      intro H. apply Z.eqb_eq in E. exfalso. apply (H r); auto.
    + apply Z.eqb_neq in E. rewrite <- IH. split.
      * intros H x Hx. apply H. now right.
      * intros H x [<-|Hx]; auto.
Qed.

Lemma filter_hour_first (before after : list PriceBar) (b : PriceBar) :
  lacks_hour h before -> hour b = h ->
  filter (fun r => hour r =? h) (before ++ b :: after)
  = b :: filter (fun r => hour r =? h) after.
Proof.
  intros Hl Hb. rewrite filter_app.
  apply filter_hour_lacks in Hl. rewrite Hl. simpl.
  apply Z.eqb_eq in Hb. now rewrite Hb.
Qed.

Lemma filter_hour_head (df rest : list PriceBar) (b : PriceBar) :
  filter (fun r => hour r =? h) df = b :: rest -> first_at_hour h df b.
Proof.
  induction df as [|r df IH]; simpl; [discriminate|].
  destruct (hour r =? h) eqn:E.
  - intros [= -> _]. exists [], df. apply Z.eqb_eq in E.
    repeat split; auto. intros x [].
  - intro H. destruct (IH H) as (before & after & -> & Hb & Hl).
    exists (r :: before), after. repeat split; auto.
    intros x [<-|Hx]; [now apply Z.eqb_neq|now apply Hl].
Qed.

Lemma first_at_hour_filter (df : list PriceBar) (b : PriceBar) :
  first_at_hour h df b ->
  exists rest, filter (fun r => hour r =? h) df = b :: rest.
Proof.
  intros (before & after & -> & Hb & Hl).
  eexists. now apply filter_hour_first.
Qed.

End AtHour.

(** ** Properties of generate_trades.py *)

Module GenerateTradesSpec.

Import GenerateTrades.

(** C1.  The signal of a day is read off its first row at hour 23: it is
    [None] when the day has no row at hour 23; otherwise it is [buy] when
    that row closes strictly below its open, [short] when it closes
    strictly above, and [None] when open and close are equal. *)
Theorem determine_signal_spec (day_df : list PriceBar) :
  (lacks_hour 23 day_df -> determine_signal day_df = None) /\
  (forall b, first_at_hour 23 day_df b ->
     ((close b < open b)%Q -> determine_signal day_df = Some buy) /\
     ((open b < close b)%Q -> determine_signal day_df = Some short) /\
     ((open b == close b)%Q -> determine_signal day_df = None)).
Proof.
  unfold determine_signal. split.
  - intro H. apply filter_hour_lacks in H. now rewrite H.
  - intros b Hb. destruct (first_at_hour_filter 23 day_df b Hb) as [rest ->].
    repeat split; intro H.
    + apply Qlt_bool_iff in H. now rewrite H.
    + assert (Qlt_bool (close b) (open b) = false) as ->.
      { apply Qlt_bool_false. now apply Qlt_le_weak. }
      apply Qlt_bool_iff in H. now rewrite H.
    + assert (Qlt_bool (close b) (open b) = false) as ->.
      { apply Qlt_bool_false. rewrite H. apply Qle_refl. }
      assert (Qlt_bool (open b) (close b) = false) as ->.
      { apply Qlt_bool_false. rewrite H. apply Qle_refl. }
      reflexivity.
Qed.

(** A day whose 23:00 candle opens at 100 and closes at 95 is a buy signal. *)
Lemma determine_signal_spec_witness :
  determine_signal [bar_at 79200 99 100; bar_at 82800 100 95] = Some buy.
Proof.
  apply (proj2 (determine_signal_spec
                  [bar_at 79200 99 100; bar_at 82800 100 95])
               (bar_at 82800 100 95)).
  - exists [bar_at 79200 99 100], []. repeat split.
    intros r [<-|[]]. vm_compute. discriminate.
  - reflexivity.
Defined.

(** C10.  When a day has several rows at hour 23, only the first of them
    in row order decides the signal: whatever follows it, duplicates at
    hour 23 included, the signal is that of the first row alone. *)
Theorem determine_signal_first_only (before after : list PriceBar) (b : PriceBar) :
  lacks_hour 23 before -> hour b = 23 ->
  determine_signal (before ++ b :: after) = determine_signal [b].
Proof.
  intros Hl Hb. unfold determine_signal.
  rewrite (filter_hour_first 23 before after b Hl Hb).
  change [b] with ([] ++ b :: []).
  rewrite (filter_hour_first 23 [] [] b); auto.
  intros r [].
Qed.

Lemma determine_signal_first_only_witness :
  determine_signal ([bar_at 79200 99 100] ++
                    bar_at 82800 100 95 :: [bar_at 82800 95 100])
  = determine_signal [bar_at 82800 100 95].
Proof.
  apply determine_signal_first_only.
  - intros r [<-|[]]. vm_compute. discriminate.
  - reflexivity.
Defined.

(** *** The shape of a built window *)

(** What [build_trade_window] returns when it returns a window. *)
Lemma build_trade_window_Some (trade_df : list PriceBar) (sd : Z)
    (dir : Direction) (eh xh : Z) (w : TradeWindow) :
  build_trade_window trade_df sd dir eh xh = Some w ->
  exists entry_row first rest,
    first_at_hour eh trade_df entry_row /\
    ~ lacks_hour xh trade_df /\
    filter (in_window eh xh) trade_df = first :: rest /\
    w = {| signal_day := sd;
           trade_day := date first;
           direction := dir;
           entry_price := open entry_row;
           data := map (annotate sd (date first) dir (open entry_row) eh)
                       (first :: rest) |}.
Proof.
  unfold build_trade_window.
  destruct (filter (fun r => hour r =? eh) trade_df) as [|entry_row er] eqn:Ee;
    [discriminate|].
  destruct (filter (fun r => hour r =? xh) trade_df) as [|exit_row xr] eqn:Ex;
    [discriminate|].
  destruct (filter (in_window eh xh) trade_df) as [|first rest] eqn:Ew;
    [discriminate|].
  intros [= <-]. exists entry_row, first, rest. repeat split.
  - now apply filter_hour_head with er.
  - intro Hl. apply filter_hour_lacks in Hl. congruence.
Qed.

(** A missing boundary row makes [build_trade_window] return [None]. *)
Lemma build_trade_window_missing (trade_df : list PriceBar) (sd : Z)
    (dir : Direction) (eh xh : Z) :
  lacks_hour eh trade_df \/ lacks_hour xh trade_df ->
  build_trade_window trade_df sd dir eh xh = None.
Proof.
  unfold build_trade_window. intros [H|H]; apply filter_hour_lacks in H.
  - now rewrite H.
  - rewrite H. now destruct (filter (fun r => hour r =? eh) trade_df).
Qed.

Lemma in_window_iff (eh xh : Z) (r : PriceBar) :
  in_window eh xh r = true <-> eh <= hour r <= xh.
Proof.
  unfold in_window. rewrite andb_true_iff, !Z.leb_le. tauto.
Qed.

(** C9.  When the trade day has a row at the entry hour and a row at the
    exit hour and the entry hour is not after the exit hour, the slice of
    rows between the two hours is not empty and [build_trade_window]
    returns a window; and whatever the hours, a returned window has at
    least one row. *)
Theorem build_trade_window_nonempty (trade_df : list PriceBar) (sd : Z)
    (dir : Direction) (eh xh : Z) :
  (~ lacks_hour eh trade_df -> ~ lacks_hour xh trade_df -> eh <= xh ->
     filter (in_window eh xh) trade_df <> [] /\
     exists w, build_trade_window trade_df sd dir eh xh = Some w) /\
  (forall w, build_trade_window trade_df sd dir eh xh = Some w -> data w <> []).
Proof.
  split.
  - intros He Hx Hle.
    assert (Hslice : filter (in_window eh xh) trade_df <> []).
    { intro Hnil. apply He. intros r Hr Hh.
      assert (In r (filter (in_window eh xh) trade_df)) as Hin.
      { apply filter_In. split; [exact Hr|]. apply in_window_iff. lia. }
      rewrite Hnil in Hin. exact Hin. }
    split; [exact Hslice|].
    unfold build_trade_window.
    destruct (filter (fun r => hour r =? eh) trade_df) as [|entry_row er] eqn:Ee.
    { apply filter_hour_lacks in Ee. contradiction. }
    destruct (filter (fun r => hour r =? xh) trade_df) as [|exit_row xr] eqn:Ex.
    { apply filter_hour_lacks in Ex. contradiction. }
    destruct (filter (in_window eh xh) trade_df) as [|first rest];
      [contradiction|].
    eexists. reflexivity.
  - intros w Hw.
    destruct (build_trade_window_Some _ _ _ _ _ _ Hw)
      as (entry_row & first & rest & _ & _ & _ & ->).
    simpl. discriminate.
Qed.

Lemma build_trade_window_nonempty_witness :
  exists w,
    build_trade_window [bar_at 39600 101 102; bar_at 75600 102 103]
                       0 buy 11 21 = Some w.
Proof.
  apply (proj1 (build_trade_window_nonempty
                  [bar_at 39600 101 102; bar_at 75600 102 103] 0 buy 11 21)).
  - intro H. apply (H (bar_at 39600 101 102)); [now left|reflexivity].
  - intro H. apply (H (bar_at 75600 102 103)); [now right; left|reflexivity].
  - lia.
Defined.

(** *** The daily partition *)

Lemma insert_key_In (x k : Z) (ks : list Z) :
  In k (insert_key x ks) <-> k = x \/ In k ks.
Proof.
  induction ks as [|k' ks IH]; simpl.
  - intuition.
  - destruct (x <? k') eqn:E1; simpl; [intuition|].
    destruct (x =? k') eqn:E2; simpl.
    + apply Z.eqb_eq in E2. subst. intuition.
    + rewrite IH. intuition.
Qed.

Lemma insert_key_sorted (x : Z) (ks : list Z) :
  StronglySorted Z.lt ks -> StronglySorted Z.lt (insert_key x ks).
Proof.
  induction 1 as [|k' ks Hs IH Hall]; simpl.
  - constructor; constructor.
  - destruct (x <? k') eqn:E1.
    + apply Z.ltb_lt in E1. constructor.
      * now constructor.
      * constructor; [exact E1|].
        eapply Forall_impl; [|exact Hall]. simpl. intros; lia.
    + destruct (x =? k') eqn:E2.
      * now constructor.
      * apply Z.ltb_ge in E1. apply Z.eqb_neq in E2. constructor; [exact IH|].
        apply Forall_forall. intros k Hk. apply insert_key_In in Hk.
        destruct Hk as [->|Hk]; [lia|].
        rewrite Forall_forall in Hall. now apply Hall.
Qed.

Lemma group_keys_sorted (df : list PriceBar) :
  StronglySorted Z.lt (group_keys df).
Proof.
  unfold group_keys. induction df as [|r df IH]; simpl.
  - constructor.
  - now apply insert_key_sorted.
Qed.

Lemma group_keys_In (df : list PriceBar) (k : Z) :
  In k (group_keys df) <-> exists r, In r df /\ date r = k.
Proof.
  unfold group_keys. induction df as [|r df IH]; simpl.
  - split; [intros []|intros (r & [] & _)].
  - rewrite insert_key_In, IH. split.
    + intros [->|(x & Hx & E)]; [exists r; auto|exists x; auto].
    + intros (x & [<-|Hx] & E); [now left|right; now exists x].
Qed.

Lemma sorted_lt_NoDup (ks : list Z) : StronglySorted Z.lt ks -> NoDup ks.
Proof.
  induction 1 as [|k ks Hs IH Hall]; constructor; [|exact IH].
  intro Hin. rewrite Forall_forall in Hall. specialize (Hall k Hin). lia.
Qed.

(** The day at a position of the partition is the set of rows of one date,
    in their original order, and is not empty. *)
Lemma iter_daily_data_nth (df : list PriceBar) (idx : nat) (day : list PriceBar) :
  nth_error (iter_daily_data df) idx = Some day ->
  exists k,
    nth_error (group_keys df) idx = Some k /\
    day = filter (fun r => date r =? k) df /\
    day <> [] /\
    forall r, In r day -> date r = k.
Proof.
  unfold iter_daily_data. rewrite nth_error_map.
  destruct (nth_error (group_keys df) idx) as [k|] eqn:E; [|discriminate].
  intros [= <-]. exists k. repeat split.
  - apply nth_error_In in E. apply group_keys_In in E.
    destruct E as (r & Hr & Hd). intro Hnil.
    assert (In r (filter (fun r => date r =? k) df)) as Hin.
    { apply filter_In. split; [exact Hr|]. now apply Z.eqb_eq. }
    rewrite Hnil in Hin. exact Hin.
  - intros r Hr. apply filter_In in Hr. now apply Z.eqb_eq.
Qed.

(** Two positions of the partition that hold rows of the same date are the
    same position. *)
Lemma iter_daily_data_distinct (df : list PriceBar) (i j : nat)
    (di dj : list PriceBar) (a b : PriceBar) :
  nth_error (iter_daily_data df) i = Some di ->
  nth_error (iter_daily_data df) j = Some dj ->
  In a di -> In b dj -> date a = date b -> i = j.
Proof.
  intros Hi Hj Ha Hb Hab.
  destruct (iter_daily_data_nth _ _ _ Hi) as (ki & Hki & _ & _ & Hdi).
  destruct (iter_daily_data_nth _ _ _ Hj) as (kj & Hkj & _ & _ & Hdj).
  assert (ki = kj) as <-.
  { rewrite <- (Hdi a Ha), <- (Hdj b Hb). exact Hab. }
  assert (Hnd : NoDup (group_keys df))
    by (apply sorted_lt_NoDup, group_keys_sorted).
  rewrite NoDup_nth_error in Hnd. apply Hnd.
  - apply nth_error_Some. congruence.
  - congruence.
Qed.

(** *** The generation loop *)

Section Loop.

Variable days : list (list PriceBar).
Variables eh xh : Z.
Hypothesis days_nonempty : forall day, In day days -> day <> [].

(** An iteration inside the range of the loop raises nothing; it either
    leaves the list of windows as it is or appends one produced window. *)
Lemma loop_body_step (acc : list TradeWindow) (idx : nat) :
  (S idx < List.length days)%nat ->
  exists acc',
    loop_body days eh xh acc idx = Ok acc' /\
    (acc' = acc \/
     exists w, acc' = acc ++ [w] /\ produced_at days eh xh idx w).
Proof.
  intro Hlt. unfold loop_body, getitem.
  destruct (nth_error days idx) as [sday|] eqn:Es.
  2:{ apply nth_error_None in Es. lia. }
  replace (idx + 1)%nat with (S idx) by lia.
  destruct (nth_error days (S idx)) as [tday|] eqn:Et.
  2:{ apply nth_error_None in Et. lia. }
  simpl. destruct sday as [|first srest] eqn:Eday.
  { apply nth_error_In in Es. now elim (days_nonempty _ Es). }
  simpl. rewrite <- Eday.
  destruct (determine_signal sday) as [dir|] eqn:Ed; [|eauto].
  destruct (build_trade_window tday (date first) dir eh xh) as [w|] eqn:Eb;
    [|eauto].
  eexists. split; [reflexivity|]. right. exists w. split; [reflexivity|].
  exists sday, tday, first, dir. subst sday. repeat split; auto.
Qed.

Lemma for_each_loop (idxs : list nat) :
  forall acc,
    (forall i, In i idxs -> (S i < List.length days)%nat) ->
    exists ws,
      for_each (loop_body days eh xh) idxs acc = Ok ws /\
      forall w, In w ws ->
        In w acc \/ exists idx, In idx idxs /\ produced_at days eh xh idx w.
Proof.
  induction idxs as [|i idxs IH]; intros acc Hrange; simpl.
  - exists acc. split; auto.
  - destruct (loop_body_step acc i) as (acc' & -> & Hacc');
      [apply Hrange; now left|].
    simpl. destruct (IH acc') as (ws & Hws & Hin);
      [intros j Hj; apply Hrange; now right|].
    exists ws. split; [exact Hws|].
    intros w Hw. destruct (Hin w Hw) as [Hold|(idx & Hidx & Hp)].
    + destruct Hacc' as [->|(w' & -> & Hp)]; [now left|].
      apply in_app_or in Hold. destruct Hold as [Hold|[<-|[]]]; [now left|].
      right. exists i. split; [now left|exact Hp].
    + right. exists idx. split; [now right|exact Hp].
Qed.

End Loop.

(** Generation raises nothing, and every window it returns was produced
    by the iteration at some position of the daily partition. *)
Lemma generate_trade_windows_produced (df : list PriceBar) (eh xh : Z) :
  exists ws,
    generate_trade_windows df eh xh = Ok ws /\
    forall w, In w ws ->
      exists idx, produced_at (iter_daily_data df) eh xh idx w.
Proof.
  unfold generate_trade_windows.
  destruct (for_each_loop (iter_daily_data df) eh xh) with
    (idxs := seq 0 (List.length (iter_daily_data df) - 1)%nat)
    (acc := @nil TradeWindow) as (ws & Hws & Hin).
  - intros day Hday. apply In_nth_error in Hday. destruct Hday as [n Hn].
    now destruct (iter_daily_data_nth _ _ _ Hn) as (k & _ & _ & Hne & _).
  - intros i Hi. apply in_seq in Hi. lia.
  - exists ws. split; [exact Hws|].
    intros w Hw. destruct (Hin w Hw) as [[]|(idx & _ & Hp)]. now exists idx.
Qed.

(** Conversely, a window produced at a position inside the range of the
    loop is in the returned list. *)
Lemma loop_body_produced (days : list (list PriceBar)) (eh xh : Z)
    (acc : list TradeWindow) (idx : nat) (w : TradeWindow) :
  produced_at days eh xh idx w ->
  loop_body days eh xh acc idx = Ok (acc ++ [w]).
Proof.
  intros (sday & tday & first & dir & Hs & Ht & Hf & Hd & Hb).
  unfold loop_body, getitem. rewrite Hs.
  replace (idx + 1)%nat with (S idx) by lia. rewrite Ht. simpl.
  destruct sday as [|f srest]; [discriminate|].
  simpl in Hf. injection Hf as ->. simpl. now rewrite Hd, Hb.
Qed.

Lemma for_each_keeps (days : list (list PriceBar)) (eh xh : Z)
    (idxs : list nat) :
  forall acc ws,
    for_each (loop_body days eh xh) idxs acc = Ok ws ->
    (forall w, In w acc -> In w ws) /\
    (forall idx w, In idx idxs -> produced_at days eh xh idx w -> In w ws).
Proof.
  induction idxs as [|i idxs IH]; intros acc ws; simpl.
  - intros [= <-]. split; [auto|intros idx w []].
  - destruct (loop_body days eh xh acc i) as [acc'|e] eqn:E; [|discriminate].
    simpl. intro Hws. destruct (IH acc' ws Hws) as [Hkeep Hnew].
    assert (Hgrow : forall w, In w acc -> In w acc').
    { unfold loop_body in E.
      destruct (getitem days i) as [sday|]; cbn [bind] in E;
        [|discriminate E].
      destruct (getitem days (i + 1)) as [tday|]; cbn [bind] in E;
        [|discriminate E].
      destruct (iloc0 sday) as [first|]; cbn [bind] in E; [|discriminate E].
      destruct (determine_signal sday) as [dir|].
      2:{ injection E as <-. auto. }
      destruct (build_trade_window tday (date first) dir eh xh).
      - injection E as <-. intros w Hw. apply in_or_app. now left.
      - injection E as <-. auto. }
    split; [auto|].
    intros idx w [<-|Hidx] Hp; [|now apply (Hnew idx)].
    rewrite (loop_body_produced _ _ _ acc i w Hp) in E. injection E as <-.
    apply Hkeep, in_or_app. right. now left.
Qed.

Lemma generate_trade_windows_complete (df : list PriceBar) (eh xh : Z)
    (ws : list TradeWindow) (idx : nat) (w : TradeWindow) :
  generate_trade_windows df eh xh = Ok ws ->
  produced_at (iter_daily_data df) eh xh idx w -> In w ws.
Proof.
  unfold generate_trade_windows. intros Hws Hp.
  destruct (for_each_keeps _ _ _ _ _ _ Hws) as [_ Hnew].
  apply (Hnew idx w); [|exact Hp].
  destruct Hp as (sday & tday & _ & _ & _ & Ht & _).
  apply in_seq. assert (S idx < List.length (iter_daily_data df))%nat.
  { apply nth_error_Some. congruence. }
  lia.
Qed.

(** C5.  Take two consecutive days of the partition.  If the second one
    has no row at the entry hour or no row at the exit hour, whether or
    not the entry row is there, then the loop iteration for the pair
    leaves the list of windows unchanged and raises nothing, and the whole
    generation returns normally a list with no window whose signal day is
    the first day of the pair. *)
Theorem missing_boundary_skipped (df : list PriceBar) (eh xh : Z) (idx : nat)
    (signal_day_df trade_day_df : list PriceBar) (first : PriceBar) :
  nth_error (iter_daily_data df) idx = Some signal_day_df ->
  nth_error (iter_daily_data df) (S idx) = Some trade_day_df ->
  hd_error signal_day_df = Some first ->
  lacks_hour eh trade_day_df \/ lacks_hour xh trade_day_df ->
  (forall acc, loop_body (iter_daily_data df) eh xh acc idx = Ok acc) /\
  exists ws,
    generate_trade_windows df eh xh = Ok ws /\
    forall w, In w ws -> signal_day w <> date first.
Proof.
  intros Hs Ht Hfirst Hmiss. split.
  - intro acc. unfold loop_body, getitem. rewrite Hs.
    replace (idx + 1)%nat with (S idx) by lia. rewrite Ht. simpl.
    destruct signal_day_df as [|f rest]; [discriminate|].
    simpl in Hfirst. injection Hfirst as ->. simpl.
    destruct (determine_signal (first :: rest)); [|reflexivity].
    now rewrite build_trade_window_missing.
  - destruct (generate_trade_windows_produced df eh xh) as (ws & Hws & Hin).
    exists ws. split; [exact Hws|]. intros w Hw Hsd.
    destruct (Hin w Hw) as (j & sday & tday & f & dir & Hjs & Hjt & Hf & _ & Hb).
    destruct (build_trade_window_Some _ _ _ _ _ _ Hb)
      as (entry_row & fst' & rest & _ & _ & _ & Ew).
    rewrite Ew in Hsd. simpl in Hsd.
    assert (j = idx) as ->.
    { apply (iter_daily_data_distinct df j idx sday signal_day_df f first);
        auto.
      - destruct sday; [discriminate|]. injection Hf as ->. now left.
      - destruct signal_day_df; [discriminate|]. injection Hfirst as ->.
        now left. }
    assert (tday = trade_day_df) as -> by congruence.
    rewrite build_trade_window_missing in Hb; [discriminate|exact Hmiss].
Qed.

Lemma missing_boundary_skipped_witness :
  (forall acc,
     loop_body (iter_daily_data incomplete_day_df) 11 21 acc 0 = Ok acc) /\
  exists ws,
    generate_trade_windows incomplete_day_df 11 21 = Ok ws /\
    forall w, In w ws -> signal_day w <> 0.
Proof.
  apply (missing_boundary_skipped incomplete_day_df 11 21 0
           [bar_at 82800 100 95] [bar_at 126000 101 102]
           (bar_at 82800 100 95)).
  - reflexivity.
  - reflexivity.
  - reflexivity.
  - right. intros r [<-|[]]. vm_compute. discriminate.
Defined.

(** *** The columns of a window *)

(** C3.  In every window returned by the generation, the entry price is
    the open of the first row at the entry hour of the window's own trade
    day, a row that the window holds; every row of the window is a row of
    that day and has a price delta equal to close minus entry price for a
    buy window and to entry price minus close for a short window; and,
    when the entry price is not zero, its percentage return is that delta
    divided by the entry price, times 100. *)
Theorem price_delta_sign_convention (df : list PriceBar) (eh xh : Z)
    (ws : list TradeWindow) (w : TradeWindow) (r : WindowRow) :
  generate_trade_windows df eh xh = Ok ws ->
  In w ws -> In r (data w) ->
  (exists trade_day_df b entry_r,
     In trade_day_df (iter_daily_data df) /\
     (forall x, In x trade_day_df -> date x = trade_day w) /\
     In (bar r) trade_day_df /\
     first_at_hour eh trade_day_df b /\
     In entry_r (data w) /\ bar entry_r = b /\
     entry_price w = open b) /\
  price_delta_from_entry r
  = match direction w with
    | buy => (close (bar r) - entry_price w)%Q
    | short => (entry_price w - close (bar r))%Q
    end /\
  (~ (entry_price w == 0)%Q ->
   return_pct_from_entry r
   = Some (price_delta_from_entry r / entry_price w * 100)%Q).
Proof.
  intros Hgen Hw Hr.
  destruct (generate_trade_windows_produced df eh xh) as (ws' & Hws' & Hin).
  assert (ws' = ws) as -> by congruence.
  destruct (Hin w Hw) as (idx & sday & tday & f & dir & _ & Ht & _ & _ & Hb).
  destruct (iter_daily_data_nth _ _ _ Ht) as (k & _ & _ & _ & Hk).
  destruct (build_trade_window_Some _ _ _ _ _ _ Hb)
    as (entry_row & fst' & rest & Hentry & _ & Ew & Eq).
  assert (Hslice : forall x, In x (fst' :: rest) ->
                     In x tday /\ eh <= hour x <= xh).
  { intros x Hx. rewrite <- Ew in Hx. apply filter_In in Hx.
    destruct Hx as [Hx1 Hx2]. apply in_window_iff in Hx2. now split. }
  assert (Hfst : In fst' tday /\ eh <= hour fst' <= xh)
    by (apply Hslice; now left).
  assert (Hentry_in : In entry_row (fst' :: rest)).
  { rewrite <- Ew. apply filter_In.
    destruct Hentry as (before & after & -> & Hh & _). split.
    - apply in_or_app. right. now left.
    - apply in_window_iff. lia. }
  subst w. cbn [entry_price direction data trade_day] in *.
  apply in_map_iff in Hr. destruct Hr as (x & <- & Hx).
  cbn [annotate price_delta_from_entry return_pct_from_entry bar].
  split; [|split].
  - exists tday, entry_row,
      (annotate (date f) (date fst') dir (open entry_row) eh entry_row).
    split; [now apply nth_error_In with (S idx)|].
    split; [intros y Hy; rewrite (Hk y Hy); symmetry; apply Hk, Hfst|].
    split; [apply Hslice, Hx|].
    split; [exact Hentry|].
    split; [now apply in_map|]. split; reflexivity.
  - now destruct dir.
  - intro Hnz. unfold np_div.
    destruct (Qeq_bool (open entry_row) 0) eqn:E; [|reflexivity].
    apply Qeq_bool_iff in E. contradiction.
Qed.

Lemma price_delta_sign_convention_witness :
  price_delta_from_entry (annotate 0 1 buy 101 11 (bar_at 162000 102 103))
  = (103 - 101)%Q /\
  return_pct_from_entry (annotate 0 1 buy 101 11 (bar_at 162000 102 103))
  = Some ((103 - 101) / 101 * 100)%Q.
Proof.
  destruct (price_delta_sign_convention complete_day_df 11 21
              [complete_day_window] complete_day_window
              (annotate 0 1 buy 101 11 (bar_at 162000 102 103))
              eq_refl (or_introl eq_refl) (or_intror (or_introl eq_refl)))
    as (_ & Hdelta & Hpct).
  split; [exact Hdelta|]. apply Hpct. vm_compute. discriminate.
Defined.

(** When the entry row opens at 0 the window is generated all the same,
    with an entry price of 0, and the percentage return of its rows is no
    number at all: the division of the column leaves a non-finite cell. *)
Lemma zero_entry_return_pct :
  exists w r,
    generate_trade_windows zero_open_df 11 21 = Ok [w] /\
    In r (data w) /\
    entry_price w = 0%Q /\
    price_delta_from_entry r = (5 - 0)%Q /\
    return_pct_from_entry r = None /\
    forall q, return_pct_from_entry r <> Some q.
Proof.
  eexists. exists (annotate 0 1 buy 0 11 (bar_at 126000 0 5)).
  split; [reflexivity|]. split; [now left|].
  repeat split. intros q H. discriminate H.
Qed.

(** *** Hours inside a window *)

(** Within one calendar day a later instant is at a later or equal hour. *)
Lemma ts_hour_mono (t1 t2 : Z) :
  t1 <= t2 -> ts_date t1 = ts_date t2 -> ts_hour t1 <= ts_hour t2.
Proof.
  unfold ts_date, ts_hour. intros Hle Hd.
  apply Z.div_le_mono; [lia|].
  rewrite !Z.mod_eq by lia. rewrite Hd. lia.
Qed.

Lemma StronglySorted_filter {A : Type} (R : A -> A -> Prop) (p : A -> bool)
    (l : list A) :
  StronglySorted R l -> StronglySorted R (filter p l).
Proof.
  induction 1 as [|a l Hs IH Hall]; simpl; [constructor|].
  destruct (p a); [|exact IH].
  constructor; [exact IH|].
  rewrite Forall_forall in *. intros x Hx. apply filter_In in Hx.
  now apply Hall.
Qed.

Lemma StronglySorted_map {A B : Type} (R : A -> A -> Prop)
    (S : B -> B -> Prop) (f : A -> B) (l : list A) :
  (forall a b, In a l -> In b l -> R a b -> S (f a) (f b)) ->
  StronglySorted R l -> StronglySorted S (map f l).
Proof.
  intros Hf Hs. induction Hs as [|a l Hs IH Hall]; simpl; [constructor|].
  constructor.
  - apply IH. intros x y Hx Hy. apply Hf; now right.
  - rewrite Forall_forall in *. intros y Hy. apply in_map_iff in Hy.
    destruct Hy as (x & <- & Hx). apply Hf; [now left|now right|].
    now apply Hall.
Qed.

(** The rows of a day's partition are in ascending order of hour. *)
Lemma daily_series_hours (df : list PriceBar) :
  daily_series df -> StronglySorted (fun a b => hour a <= hour b) df.
Proof.
  intros (Hder & Hdate & Hs).
  rewrite <- (map_id df) at 1.
  apply StronglySorted_map with (R := by_timestamp); [|exact Hs].
  unfold by_timestamp, id. intros a b Ha Hb Hle.
  rewrite Forall_forall in Hder.
  destruct (Hder a Ha) as [Hda ->]. destruct (Hder b Hb) as [Hdb ->].
  apply ts_hour_mono; [exact Hle|].
  rewrite <- Hda, <- Hdb. now apply Hdate.
Qed.

(** C7.  For a trade day whose rows are in ascending order of timestamp,
    every row of a built window has its hour between the entry hour and
    the exit hour, both included; its [hours_from_entry] is its hour minus
    the entry hour, hence between 0 and exit hour minus entry hour; and
    [hours_from_entry] never decreases along the rows of the window. *)
Theorem window_hours (trade_df : list PriceBar) (sd : Z) (dir : Direction)
    (eh xh : Z) (w : TradeWindow) :
  daily_series trade_df ->
  build_trade_window trade_df sd dir eh xh = Some w ->
  (forall r, In r (data w) ->
     eh <= hour (bar r) <= xh /\
     hours_from_entry r = hour (bar r) - eh /\
     0 <= hours_from_entry r <= xh - eh) /\
  StronglySorted Z.le (map hours_from_entry (data w)).
Proof.
  intros Hday Hb.
  destruct (build_trade_window_Some _ _ _ _ _ _ Hb)
    as (entry_row & first & rest & _ & _ & Ew & ->).
  cbn [data]. rewrite <- Ew. split.
  - intros r Hr. apply in_map_iff in Hr. destruct Hr as (x & <- & Hx).
    apply filter_In in Hx. destruct Hx as [_ Hx].
    apply in_window_iff in Hx. cbn [annotate bar hours_from_entry]. lia.
  - rewrite map_map. cbn [annotate hours_from_entry].
    apply StronglySorted_map with (R := fun a b => hour a <= hour b).
    + intros; lia.
    + apply StronglySorted_filter. now apply daily_series_hours.
Qed.

Lemma window_hours_witness :
  StronglySorted Z.le (map hours_from_entry (data complete_day_window)).
Proof.
  apply (window_hours [bar_at 126000 101 102; bar_at 162000 102 103]
           0 buy 11 21 complete_day_window); [|reflexivity].
  split; [|split].
  - repeat constructor.
  - intros a b [<-|[<-|[]]] [<-|[<-|[]]]; reflexivity.
  - repeat constructor; unfold by_timestamp; simpl; lia.
Defined.

(** *** The loader *)

Lemma insert_row_perm (r : CsvRow) (l : list CsvRow) :
  Permutation (insert_row r l) (r :: l).
Proof.
  induction l as [|x l IH]; simpl; [reflexivity|].
  destruct (time r <=? time x); [reflexivity|].
  rewrite IH. apply perm_swap.
Qed.

Lemma insert_row_sorted (r : CsvRow) (l : list CsvRow) :
  StronglySorted by_time l -> StronglySorted by_time (insert_row r l).
Proof.
  induction 1 as [|x l Hs IH Hall]; simpl.
  - constructor; constructor.
  - destruct (time r <=? time x) eqn:E.
    + apply Z.leb_le in E. constructor; [now constructor|].
      constructor; [exact E|].
      eapply Forall_impl; [|exact Hall]. unfold by_time. intros; lia.
    + apply Z.leb_gt in E. constructor; [exact IH|].
      apply Forall_forall. intros y Hy.
      apply (Permutation_in _ (insert_row_perm r l)) in Hy.
      destruct Hy as [<-|Hy]; [unfold by_time; lia|].
      rewrite Forall_forall in Hall. now apply Hall.
Qed.

Lemma sort_values_perm (tie_order : list CsvRow -> list CsvRow)
    (df : list CsvRow) :
  Permutation (sort_values tie_order df) (tie_order df).
Proof.
  unfold sort_values. induction (tie_order df) as [|r l IH]; simpl;
    [reflexivity|].
  rewrite insert_row_perm. now constructor.
Qed.

Lemma sort_values_sorted (tie_order : list CsvRow -> list CsvRow)
    (df : list CsvRow) :
  StronglySorted by_time (sort_values tie_order df).
Proof.
  unfold sort_values. induction (tie_order df) as [|r l IH]; simpl.
  - constructor.
  - now apply insert_row_sorted.
Qed.

Lemma difference_nil (xs ys : list string) :
  difference xs ys = [] <-> forall c, In c xs -> In c ys.
Proof.
  unfold difference. induction xs as [|x xs IH]; simpl.
  - split; [intros _ c []|reflexivity].
  - destruct (existsb (String.eqb x) ys) eqn:E; simpl.
    + rewrite IH. apply existsb_exists in E. destruct E as (y & Hy & Exy).
      apply String.eqb_eq in Exy. subst y. split.
      * intros H c [<-|Hc]; auto.
      * intros H c Hc. apply H. now right.
    + split; [discriminate|]. intro H.
      assert (existsb (String.eqb x) ys = true); [|congruence].
      apply existsb_exists. exists x. split; [apply H; now left|].
      apply String.eqb_refl.
Qed.

Lemma sorted_frame (tie_order : list CsvRow -> list CsvRow)
    (df : list CsvRow) :
  StronglySorted by_timestamp (map derive (sort_values tie_order df)) /\
  Forall derived_fields (map derive (sort_values tie_order df)).
Proof.
  split.
  - apply StronglySorted_map with (R := by_time); [|apply sort_values_sorted].
    intros a b _ _ H. exact H.
  - apply Forall_forall. intros b Hb. apply in_map_iff in Hb.
    destruct Hb as (r & <- & _). now split.
Qed.

(** C8.  Loading fails with [FileNotFoundError] when the file does not
    exist, and with [ValueError] when the file exists and its header lacks
    the time, the open, the high, the low or the close column.  Otherwise
    it returns the rows of the file, rearranged in ascending order of
    timestamp whatever the order among equal timestamps, each row with its
    instant as timestamp, the day and the hour of that instant as date and
    hour, and its four prices. *)
Theorem load_price_data_spec (tie_order : list CsvRow -> list CsvRow)
    (fs : FileSystem) (csv_path : string) :
  (forall l, Permutation (tie_order l) l) ->
  (fs csv_path = None ->
   load_price_data tie_order fs csv_path = Raise FileNotFoundError) /\
  (forall f, fs csv_path = Some f ->
     ~ In "time"%string (columns f) \/ ~ In "open"%string (columns f) \/
     ~ In "high"%string (columns f) \/ ~ In "low"%string (columns f) \/
     ~ In "close"%string (columns f) ->
     load_price_data tie_order fs csv_path = Raise ValueError) /\
  (forall f, fs csv_path = Some f ->
     In "time"%string (columns f) -> In "open"%string (columns f) ->
     In "high"%string (columns f) -> In "low"%string (columns f) ->
     In "close"%string (columns f) ->
     exists sorted_rows,
       Permutation sorted_rows (rows f) /\
       StronglySorted (fun a b => time a <= time b) sorted_rows /\
       load_price_data tie_order fs csv_path
       = Ok (map (fun r => {| timestamp := time r;
                              date := time r / 86400;
                              hour := (time r mod 86400) / 3600;
                              open := csv_open r;
                              high := csv_high r;
                              low := csv_low r;
                              close := csv_close r |})
                 sorted_rows)).
Proof.
  intro Hperm. unfold load_price_data. split; [|split].
  - now intros ->.
  - intros f -> Hmissing.
    destruct (difference required (columns f)) eqn:E; [|reflexivity].
    exfalso. pose proof (proj1 (difference_nil _ _) E) as Hall.
    unfold required in Hall. simpl in Hall.
    destruct Hmissing as [H|[H|[H|[H|H]]]]; apply H, Hall; tauto.
  - intros f -> Ht Ho Hh Hl Hc.
    assert (Hall : difference required (columns f) = []).
    { apply difference_nil. unfold required. simpl.
      intros c [<-|[<-|[<-|[<-|[<-|[]]]]]]; assumption. }
    rewrite Hall. exists (sort_values tie_order (rows f)).
    split; [|split].
    + rewrite sort_values_perm. apply Hperm.
    + apply sort_values_sorted.
    + reflexivity.
Qed.

Lemma load_price_data_spec_witness :
  load_price_data (fun l => l) prices_fs "missing.csv"
  = Raise FileNotFoundError /\
  load_price_data (fun l => l) no_close_fs "prices.csv" = Raise ValueError /\
  exists sorted_rows,
    Permutation sorted_rows (rows prices_csv) /\
    StronglySorted (fun a b => time a <= time b) sorted_rows /\
    load_price_data (fun l => l) prices_fs "prices.csv"
    = Ok (map (fun r => {| timestamp := time r;
                           date := time r / 86400;
                           hour := (time r mod 86400) / 3600;
                           open := csv_open r;
                           high := csv_high r;
                           low := csv_low r;
                           close := csv_close r |})
              sorted_rows).
Proof.
  split; [|split].
  - apply (proj1 (load_price_data_spec (fun l => l) prices_fs "missing.csv"
                    (fun l => Permutation_refl l))).
    reflexivity.
  - apply (proj1 (proj2 (load_price_data_spec (fun l => l) no_close_fs
                           "prices.csv" (fun l => Permutation_refl l)))
             _ eq_refl).
    right. right. right. right. simpl. intros [H|[H|[H|[H|[]]]]]; discriminate.
  - apply (proj2 (proj2 (load_price_data_spec (fun l => l) prices_fs
                           "prices.csv" (fun l => Permutation_refl l)))
             prices_csv eq_refl); simpl; tauto.
Defined.

(** The order among rows of equal timestamp is not fixed by the code and
    it matters: the file [tied_rows] loads with its bearish 23:00 row
    first under one tie order and with its bullish one first under
    another, and the day's signal follows. *)
Lemma tie_order_decides_signal :
  (exists df, load_price_data (fun l => l) tied_fs "prices.csv" = Ok df /\
              determine_signal df = Some buy) /\
  (exists df, load_price_data (@rev CsvRow) tied_fs "prices.csv" = Ok df /\
              determine_signal df = Some short).
Proof.
  split; eexists; (split; [reflexivity|]); reflexivity.
Qed.

(** Every day of the partition of a loaded series is a daily series. *)
Lemma loaded_days_are_daily_series (tie_order : list CsvRow -> list CsvRow)
    (fs : FileSystem) (csv_path : string) (df day : list PriceBar) :
  load_price_data tie_order fs csv_path = Ok df ->
  In day (iter_daily_data df) -> daily_series day.
Proof.
  intros Hload Hday.
  assert (Hsorted : StronglySorted by_timestamp df /\ Forall derived_fields df).
  { unfold load_price_data in Hload.
    destruct (fs csv_path) as [f|]; [|discriminate].
    destruct (difference required (columns f)); [|discriminate].
    injection Hload as <-. apply sorted_frame. }
  destruct Hsorted as [Hs Hd].
  apply In_nth_error in Hday. destruct Hday as [n Hn].
  destruct (iter_daily_data_nth _ _ _ Hn) as (k & _ & -> & _ & Hk).
  repeat split.
  - rewrite Forall_forall in *. intros b Hb. apply filter_In in Hb.
    now apply Hd.
  - intros a b Ha Hb. now rewrite (Hk a Ha), (Hk b Hb).
  - now apply StronglySorted_filter.
Qed.

End GenerateTradesSpec.

(** ** Properties of analyze_trades.py *)

Module AnalyzeTradesSpec.

Import AnalyzeTrades.

Lemma pct_Ok (value ep : Q) :
  ~ (ep == 0)%Q -> pct value ep = Ok (value / ep * 100)%Q.
Proof.
  intro Hnz. unfold pct, py_div.
  destruct (Qeq_bool ep 0) eqn:E; [|reflexivity].
  apply Qeq_bool_iff in E. contradiction.
Qed.

Lemma pct_Raise (value ep : Q) :
  (ep == 0)%Q -> pct value ep = Raise ZeroDivisionError.
Proof.
  intro Hz. unfold pct, py_div. apply Qeq_bool_iff in Hz. now rewrite Hz.
Qed.

(** C2.  On a window with at least one row and an entry price other than
    zero, the metrics are returned and, with closeMax, highMax, closeMin
    and lowMin the extreme values of the close, high and low columns and
    lastClose the close of the last row: for a buy window, the maximum
    return is max(0, max(closeMax, highMax) - entry), the maximum drawdown
    is max(0, entry - lowMin) and the final return is lastClose - entry;
    for a short window, the maximum return is
    max(0, entry - min(closeMin, lowMin)), the maximum drawdown is
    max(0, max(closeMax, highMax) - entry) and the final return is
    entry - lastClose.  Each percentage is its value divided by the entry
    price, times 100, and the hours captured are the number of rows. *)
Theorem compute_metrics_spec (dir : Direction) (first : WindowRow)
    (rest : list WindowRow) :
  let df := first :: rest in
  let ep := col_entry_price first in
  let lastClose := close (bar (last df first)) in
  ~ (ep == 0)%Q ->
  exists m closeMax highMax closeMin lowMin,
    compute_fn dir df = Ok m /\
    is_max_of closeMax (column close df) /\
    is_max_of highMax (column high df) /\
    is_min_of closeMin (column close df) /\
    is_min_of lowMin (column low df) /\
    match dir with
    | buy =>
        (max_return m == Qmax 0 (Qmax closeMax highMax - ep))%Q /\
        (max_drawdown m == Qmax 0 (ep - lowMin))%Q /\
        (final_return m == lastClose - ep)%Q
    | short =>
        (max_return m == Qmax 0 (ep - Qmin closeMin lowMin))%Q /\
        (max_drawdown m == Qmax 0 (Qmax closeMax highMax - ep))%Q /\
        (final_return m == ep - lastClose)%Q
    end /\
    (final_return_pct m == final_return m / ep * 100)%Q /\
    (max_return_pct m == max_return m / ep * 100)%Q /\
    (max_drawdown_pct m == max_drawdown m / ep * 100)%Q /\
    hours_captured m = List.length df.
Proof.
  intros df ep lastClose Hnz.
  assert (Hlast : last rest first = last df first).
  { unfold df. destruct rest; reflexivity. }
  unfold lastClose. rewrite <- Hlast. subst df ep. clear lastClose Hlast.
  destruct dir; unfold compute_fn; cbn [Direction_eqb];
    [unfold compute_buy_metrics|unfold compute_short_metrics];
    cbv beta iota zeta; rewrite !pct_Ok by exact Hnz; cbn [bind];
    eexists;
    exists (series_max (close (bar first)) (column close rest)),
           (series_max (high (bar first)) (column high rest)),
           (series_min (close (bar first)) (column close rest)),
           (series_min (low (bar first)) (column low rest));
    (split; [reflexivity|]);
    (split; [apply series_max_is_max|]);
    (split; [apply series_max_is_max|]);
    (split; [apply series_min_is_min|]);
    (split; [apply series_min_is_min|]);
    cbn [max_return max_drawdown final_return final_return_pct
         max_return_pct max_drawdown_pct hours_captured].
  - rewrite !py_max_Qmax. repeat split; reflexivity.
  - rewrite !py_max_Qmax, !py_min_Qmin. repeat split; reflexivity.
Qed.

Lemma compute_metrics_spec_witness :
  exists m closeMax highMax closeMin lowMin,
    compute_fn short [short_example_row] = Ok m /\
    is_max_of closeMax (column close [short_example_row]) /\
    is_max_of highMax (column high [short_example_row]) /\
    is_min_of closeMin (column close [short_example_row]) /\
    is_min_of lowMin (column low [short_example_row]) /\
    ((max_return m == Qmax 0 (101 - Qmin closeMin lowMin))%Q /\
     (max_drawdown m == Qmax 0 (Qmax closeMax highMax - 101))%Q /\
     (final_return m == 101 - 100)%Q) /\
    (final_return_pct m == final_return m / 101 * 100)%Q /\
    (max_return_pct m == max_return m / 101 * 100)%Q /\
    (max_drawdown_pct m == max_drawdown m / 101 * 100)%Q /\
    hours_captured m = 1%nat.
Proof.
  apply (compute_metrics_spec short short_example_row []).
  vm_compute. discriminate.
Defined.

(** With a recorded entry price of 0 the window is not empty and yet no
    metrics are returned: the first percentage raises. *)
Lemma compute_metrics_zero_entry :
  compute_fn buy [zero_entry_row] = Raise ZeroDivisionError /\
  ~ exists m, compute_fn buy [zero_entry_row] = Ok m.
Proof.
  split; [reflexivity|]. intros [m Hm]. discriminate Hm.
Qed.

(** C4.  Whatever the direction and the prices of the window, computed
    metrics have a maximum return and a maximum drawdown that are not
    negative. *)
Theorem metrics_nonneg (dir : Direction) (df : list WindowRow)
    (m : TradeMetrics) :
  compute_fn dir df = Ok m ->
  (0 <= max_return m)%Q /\ (0 <= max_drawdown m)%Q.
Proof.
  destruct df as [|first rest].
  - destruct dir; discriminate.
  - destruct dir; unfold compute_fn; cbn [Direction_eqb];
      [unfold compute_buy_metrics|unfold compute_short_metrics];
      cbv beta iota zeta; unfold pct, py_div;
      destruct (Qeq_bool (col_entry_price first) 0); cbn [bind];
      try discriminate; intros [= <-]; cbn [max_return max_drawdown];
      split; apply py_max_ge_l.
Qed.

Lemma metrics_nonneg_witness :
  exists m,
    compute_fn short [short_example_row] = Ok m /\
    (0 <= max_return m)%Q /\ (0 <= max_drawdown m)%Q.
Proof.
  eexists. split; [reflexivity|].
  apply (metrics_nonneg short [short_example_row]). reflexivity.
Defined.

(** The entry price decides whether the metrics are computed at all: the
    percentages divide by it. *)
Lemma compute_fn_zero_entry (dir : Direction) (first : WindowRow)
    (rest : list WindowRow) :
  (col_entry_price first == 0)%Q ->
  compute_fn dir (first :: rest) = Raise ZeroDivisionError.
Proof.
  intro Hz. destruct dir; unfold compute_fn; cbn [Direction_eqb];
    [unfold compute_buy_metrics|unfold compute_short_metrics];
    cbv beta iota zeta; now rewrite pct_Raise.
Qed.

Lemma compute_fn_empty (dir : Direction) :
  compute_fn dir [] = Raise IndexError.
Proof. now destruct dir. Qed.

(** *** Summaries *)

Lemma fold_left_Qplus (xs : list Q) :
  forall a, (fold_left Qplus xs a == a + total xs)%Q.
Proof.
  induction xs as [|x xs IH]; intro a; simpl.
  - ring.
  - rewrite IH. ring.
Qed.

Lemma py_sum_total (xs : list Q) : (py_sum xs == total xs)%Q.
Proof. unfold py_sum. rewrite fold_left_Qplus. ring. Qed.

Lemma average_Ok (sum : Q) (count : nat) :
  average sum count
  = Ok (if (count =? 0)%nat then 0 else sum / inject_Z (Z.of_nat count))%Q.
Proof.
  unfold average, py_div. destruct count as [|n]; reflexivity.
Qed.

(** C6.  The summary of a list of metrics is always returned (no division
    fault); its count is the number of metrics, its sums are the sums of
    the final returns, maximum returns and maximum drawdowns, and each
    average is 0 for an empty list and the sum divided by the count
    otherwise. *)
Theorem summarize_metrics_spec (rows : list TradeMetrics) (dir : Direction) :
  exists s,
    summarize_metrics rows dir = Ok s /\
    summary_direction s = dir /\
    trade_count s = List.length rows /\
    (sum_final_return s == total (map final_return rows))%Q /\
    (sum_max_return s == total (map max_return rows))%Q /\
    (sum_max_drawdown s == total (map max_drawdown rows))%Q /\
    avg_final_return s
    = (if (trade_count s =? 0)%nat then 0
       else sum_final_return s / inject_Z (Z.of_nat (trade_count s)))%Q /\
    avg_max_return s
    = (if (trade_count s =? 0)%nat then 0
       else sum_max_return s / inject_Z (Z.of_nat (trade_count s)))%Q /\
    avg_max_drawdown s
    = (if (trade_count s =? 0)%nat then 0
       else sum_max_drawdown s / inject_Z (Z.of_nat (trade_count s)))%Q.
Proof.
  unfold summarize_metrics. rewrite !average_Ok. cbn [bind].
  eexists. split; [reflexivity|].
  cbn [summary_direction trade_count sum_final_return sum_max_return
       sum_max_drawdown avg_final_return avg_max_return avg_max_drawdown].
  repeat split; apply py_sum_total.
Qed.

(** With no trade at all the summary has count 0 and averages 0. *)
Lemma summarize_metrics_empty (dir : Direction) :
  summarize_metrics [] dir
  = Ok {| summary_direction := dir; trade_count := 0;
          sum_final_return := 0; sum_max_return := 0; sum_max_drawdown := 0;
          avg_final_return := 0; avg_max_return := 0;
          avg_max_drawdown := 0 |}.
Proof. reflexivity. Qed.

End AnalyzeTradesSpec.

(** ** Further properties of generate_trades.py *)

Module GenerateTradesMore.

Import GenerateTrades.
Import GenerateTradesSpec.

(** *** The daily partition *)

(** X1.  The days of the partition come in strictly ascending order of
    date: every row of an earlier day is dated before every row of a later
    day.  No day is empty and the rows of a day share one date. *)
Theorem iter_daily_data_ascending (df : list PriceBar) :
  StronglySorted
    (fun d1 d2 => forall a b, In a d1 -> In b d2 -> date a < date b)
    (iter_daily_data df) /\
  Forall (fun day => day <> [] /\
                     forall a b, In a day -> In b day -> date a = date b)
         (iter_daily_data df).
Proof.
  split.
  - unfold iter_daily_data.
    apply StronglySorted_map with (R := Z.lt); [|apply group_keys_sorted].
    intros k1 k2 _ _ Hlt a b Ha Hb.
    apply filter_In in Ha. apply filter_In in Hb.
    destruct Ha as [_ Ha]. destruct Hb as [_ Hb].
    apply Z.eqb_eq in Ha. apply Z.eqb_eq in Hb. lia.
  - apply Forall_forall. intros day Hday.
    apply In_nth_error in Hday. destruct Hday as [n Hn].
    destruct (iter_daily_data_nth _ _ _ Hn) as (k & _ & _ & Hne & Hk).
    split; [exact Hne|]. intros a b Ha Hb.
    now rewrite (Hk a Ha), (Hk b Hb).
Qed.

(** Splitting the rows of a frame on one more key. *)
Lemma filter_keys_cons (k : Z) (ks : list Z) (df : list PriceBar) :
  ~ In k ks ->
  Permutation
    (filter (fun r => existsb (Z.eqb (date r)) (k :: ks)) df)
    (filter (fun r => date r =? k) df ++
     filter (fun r => existsb (Z.eqb (date r)) ks) df).
Proof.
  intro Hk. induction df as [|r df IH]; simpl; [constructor|].
  destruct (date r =? k) eqn:E; simpl.
  - assert (existsb (Z.eqb (date r)) ks = false) as ->.
    { apply Z.eqb_eq in E. rewrite E.
      destruct (existsb (Z.eqb k) ks) eqn:Eks; [|reflexivity].
      apply existsb_exists in Eks. destruct Eks as (x & Hx & Exk).
      apply Z.eqb_eq in Exk. subst x. contradiction. }
    now constructor.
  - destruct (existsb (Z.eqb (date r)) ks) eqn:Eks; [|exact IH].
    rewrite IH. apply Permutation_middle.
Qed.

Lemma concat_filter_keys (ks : list Z) (df : list PriceBar) :
  NoDup ks ->
  Permutation
    (List.concat (map (fun k => filter (fun r => date r =? k) df) ks))
    (filter (fun r => existsb (Z.eqb (date r)) ks) df).
Proof.
  induction 1 as [|k ks Hk Hnd IH].
  - simpl. induction df as [|r df IHdf]; simpl; auto.
  - cbn [map List.concat]. rewrite filter_keys_cons by exact Hk.
    now apply Permutation_app_head.
Qed.

(** X2.  The partition loses no row and repeats none: the days put end to
    end are a rearrangement of the frame. *)
Theorem iter_daily_data_perm (df : list PriceBar) :
  Permutation (List.concat (iter_daily_data df)) df.
Proof.
  unfold iter_daily_data.
  rewrite concat_filter_keys
    by (apply sorted_lt_NoDup, group_keys_sorted).
  assert (Hall : forall r, In r df ->
            existsb (Z.eqb (date r)) (group_keys df) = true).
  { intros r Hr. apply existsb_exists. exists (date r).
    split; [|apply Z.eqb_refl]. apply group_keys_In. now exists r. }
  assert (Hid : forall l, (forall r, In r l -> In r df) ->
            filter (fun r => existsb (Z.eqb (date r)) (group_keys df)) l = l).
  { induction l as [|r l IHl]; intro Hsub; simpl; [reflexivity|].
    rewrite Hall by (apply Hsub; now left).
    f_equal. apply IHl. intros x Hx. apply Hsub. now right. }
  rewrite Hid by auto. reflexivity.
Qed.

Lemma map_filter_skip (r : PriceBar) (df : list PriceBar) (ks : list Z) :
  ~ In (date r) ks ->
  map (fun k => filter (fun x => date x =? k) (r :: df)) ks
  = map (fun k => filter (fun x => date x =? k) df) ks.
Proof.
  intro Hr. apply map_ext_in. intros k Hk. simpl.
  destruct (date r =? k) eqn:E; [|reflexivity].
  apply Z.eqb_eq in E. subst k. contradiction.
Qed.

Lemma ts_date_mono (t1 t2 : Z) : t1 <= t2 -> ts_date t1 <= ts_date t2.
Proof. intro H. unfold ts_date. apply Z.div_le_mono; lia. Qed.

Lemma concat_days_sorted (df : list PriceBar) :
  StronglySorted (fun a b => date a <= date b) df ->
  List.concat (iter_daily_data df) = df.
Proof.
  unfold iter_daily_data.
  induction 1 as [|r df Hs IH Hall]; [reflexivity|].
  rewrite Forall_forall in Hall.
  assert (Hge : forall k, In k (group_keys df) -> date r <= k).
  { intros k Hk. apply group_keys_In in Hk. destruct Hk as (x & Hx & <-).
    now apply Hall. }
  pose proof (group_keys_sorted df) as Hks.
  change (group_keys (r :: df)) with (insert_key (date r) (group_keys df)).
  destruct (group_keys df) as [|k ks] eqn:Eks.
  - destruct df as [|x df'].
    + simpl. now rewrite Z.eqb_refl.
    + assert (In (date x) (group_keys (x :: df'))) as Hin
        by (apply group_keys_In; exists x; split; [now left|reflexivity]).
      rewrite Eks in Hin. contradiction Hin.
  - inversion Hks as [|? ? Hks' Hlt]; subst. rewrite Forall_forall in Hlt.
    assert (Hrest : ~ In (date r) ks).
    { intro Hin. specialize (Hlt _ Hin). specialize (Hge k (or_introl eq_refl)).
      lia. }
    cbn [insert_key]. destruct (date r <? k) eqn:E1.
    + apply Z.ltb_lt in E1. rewrite map_cons, concat_cons.
      rewrite map_filter_skip.
      2:{ intro Hin. destruct Hin as [Hin|Hin]; [lia|contradiction]. }
      rewrite IH. cbn [filter]. rewrite Z.eqb_refl.
      assert (filter (fun x => date x =? date r) df = []) as ->; [|reflexivity].
      destruct (filter (fun x => date x =? date r) df) as [|x l] eqn:Ef;
        [reflexivity|].
      assert (In x (filter (fun x => date x =? date r) df)) as Hx
        by (rewrite Ef; now left).
      apply filter_In in Hx. destruct Hx as [Hx Hd]. apply Z.eqb_eq in Hd.
      assert (In (date r) (group_keys df)) as Hin
        by (apply group_keys_In; now exists x).
      rewrite Eks in Hin. destruct Hin as [Hin|Hin]; [lia|contradiction].
    + apply Z.ltb_ge in E1. specialize (Hge k (or_introl eq_refl)).
      assert (date r = k) as Hk by lia.
      rewrite (proj2 (Z.eqb_eq _ _) Hk).
      rewrite map_cons, concat_cons in *.
      rewrite map_filter_skip by exact Hrest.
      cbn [filter]. rewrite (proj2 (Z.eqb_eq _ _) Hk). simpl.
      now rewrite IH.
Qed.

(** X3.  When the dates never decrease along the rows of a frame the days
    put end to end give back the frame, row for row; this is the case of
    every frame returned by the loader, whatever the order among rows of
    equal timestamp. *)
Theorem iter_daily_data_concat (df : list PriceBar) :
  (StronglySorted (fun a b => date a <= date b) df ->
   List.concat (iter_daily_data df) = df) /\
  (forall tie_order fs csv_path,
     load_price_data tie_order fs csv_path = Ok df ->
     List.concat (iter_daily_data df) = df).
Proof.
  split; [apply concat_days_sorted|].
  intros tie_order fs csv_path Hload. apply concat_days_sorted.
  unfold load_price_data in Hload.
  destruct (fs csv_path) as [f|]; [|discriminate].
  destruct (difference required (columns f)); [|discriminate].
  injection Hload as <-.
  apply StronglySorted_map with (R := by_time); [|apply sort_values_sorted].
  intros a b _ _ Hab. simpl. now apply ts_date_mono.
Qed.

Lemma iter_daily_data_concat_witness :
  List.concat (iter_daily_data complete_day_df) = complete_day_df.
Proof.
  apply (proj1 (iter_daily_data_concat complete_day_df)).
  repeat constructor; simpl; vm_compute; discriminate.
Defined.

(** *** Which days give a window *)

(** A window is built exactly when the day has a row at each of the two
    hours and the entry hour is not after the exit hour. *)
Lemma build_trade_window_is_Some (trade_df : list PriceBar) (sd : Z)
    (dir : Direction) (eh xh : Z) :
  (exists w, build_trade_window trade_df sd dir eh xh = Some w) <->
  ~ lacks_hour eh trade_df /\ ~ lacks_hour xh trade_df /\ eh <= xh.
Proof.
  split.
  - intros [w Hw].
    destruct (build_trade_window_Some _ _ _ _ _ _ Hw)
      as (entry_row & first & rest & Hentry & Hexit & Ew & _).
    destruct Hentry as (before & after & -> & Hh & _).
    repeat split.
    + intro Hl. apply (Hl entry_row); [|exact Hh].
      apply in_or_app. right. now left.
    + exact Hexit.
    + assert (In first (filter (in_window eh xh)
                          (before ++ entry_row :: after))) as Hin
        by (rewrite Ew; now left).
      apply filter_In in Hin. destruct Hin as [_ Hin].
      apply in_window_iff in Hin. lia.
  - intros (He & Hx & Hle). unfold build_trade_window.
    destruct (filter (fun r => hour r =? eh) trade_df) as [|entry_row er] eqn:Ee.
    { apply filter_hour_lacks in Ee. contradiction. }
    destruct (filter (fun r => hour r =? xh) trade_df) as [|exit_row xr] eqn:Ex.
    { apply filter_hour_lacks in Ex. contradiction. }
    destruct (filter (in_window eh xh) trade_df) as [|first rest] eqn:Ew.
    + exfalso. assert (In entry_row (filter (in_window eh xh) trade_df)) as Hin.
      { assert (In entry_row (filter (fun r => hour r =? eh) trade_df)) as H
          by (rewrite Ee; now left).
        apply filter_In in H. destruct H as [H1 H2]. apply Z.eqb_eq in H2.
        apply filter_In. split; [exact H1|]. apply in_window_iff. lia. }
      rewrite Ew in Hin. exact Hin.
    + eexists. reflexivity.
Qed.

(** X4.  The signal days of the returned windows are exactly the days of
    the partition that have a signal and are followed by a day with a row
    at the entry hour and a row at the exit hour, the entry hour being not
    after the exit hour. *)
Theorem window_signal_days (df : list PriceBar) (eh xh : Z)
    (ws : list TradeWindow) (k : Z) :
  generate_trade_windows df eh xh = Ok ws ->
  ((exists w, In w ws /\ signal_day w = k) <->
   (exists idx signal_day_df trade_day_df first dir,
      nth_error (iter_daily_data df) idx = Some signal_day_df /\
      nth_error (iter_daily_data df) (S idx) = Some trade_day_df /\
      hd_error signal_day_df = Some first /\ date first = k /\
      determine_signal signal_day_df = Some dir /\
      ~ lacks_hour eh trade_day_df /\ ~ lacks_hour xh trade_day_df /\
      eh <= xh)).
Proof.
  intro Hgen. split.
  - intros (w & Hw & Hk).
    destruct (generate_trade_windows_produced df eh xh) as (ws' & Hws' & Hin).
    assert (ws' = ws) as -> by congruence.
    destruct (Hin w Hw) as (idx & sday & tday & first & dir
                            & Hs & Ht & Hf & Hd & Hb).
    exists idx, sday, tday, first, dir.
    assert (Hsome : exists w', build_trade_window tday (date first) dir eh xh
                               = Some w') by now exists w.
    apply build_trade_window_is_Some in Hsome.
    destruct (build_trade_window_Some _ _ _ _ _ _ Hb)
      as (? & ? & ? & _ & _ & _ & Ew).
    rewrite Ew in Hk. simpl in Hk. tauto.
  - intros (idx & sday & tday & first & dir
            & Hs & Ht & Hf & Hk & Hd & He & Hx & Hle).
    destruct (proj2 (build_trade_window_is_Some tday (date first) dir eh xh))
      as [w Hw]; [tauto|].
    exists w. split.
    + apply (generate_trade_windows_complete df eh xh ws idx w Hgen).
      now exists sday, tday, first, dir.
    + destruct (build_trade_window_Some _ _ _ _ _ _ Hw)
        as (? & ? & ? & _ & _ & _ & Ew).
      rewrite Ew. simpl. exact Hk.
Qed.

Lemma window_signal_days_witness :
  exists w, In w [complete_day_window] /\ signal_day w = 0.
Proof.
  apply (proj2 (window_signal_days complete_day_df 11 21
                  [complete_day_window] 0 eq_refl)).
  exists 0%nat, [bar_at 82800 100 95],
    [bar_at 126000 101 102; bar_at 162000 102 103],
    (bar_at 82800 100 95), buy.
  repeat split; try reflexivity.
  - intro H. apply (H (bar_at 126000 101 102)); [now left|reflexivity].
  - intro H. apply (H (bar_at 162000 102 103)); [now right; left|reflexivity].
  - lia.
Defined.

(** X5.  With an exit hour before the entry hour no day ever gives a
    window: the generation returns the empty list, whatever the data. *)
Theorem exit_before_entry_no_window (df : list PriceBar) (eh xh : Z) :
  xh < eh -> generate_trade_windows df eh xh = Ok [].
Proof.
  intro Hlt.
  destruct (generate_trade_windows_produced df eh xh) as (ws & Hws & Hin).
  rewrite Hws. f_equal. destruct ws as [|w ws]; [reflexivity|].
  destruct (Hin w (or_introl eq_refl))
    as (idx & sday & tday & first & dir & _ & _ & _ & _ & Hb).
  assert (Hsome : exists w', build_trade_window tday (date first) dir eh xh
                             = Some w') by now exists w.
  apply build_trade_window_is_Some in Hsome. lia.
Qed.

Lemma exit_before_entry_no_window_witness :
  generate_trade_windows complete_day_df 21 11 = Ok [].
Proof.
  apply exit_before_entry_no_window. lia.
Defined.

(** *** Provenance and order of the windows *)

Lemma sorted_lt_nth (l : list Z) :
  StronglySorted Z.lt l ->
  forall i j a b,
    nth_error l i = Some a -> nth_error l j = Some b -> (i < j)%nat -> a < b.
Proof.
  induction 1 as [|x l Hs IH Hall]; intros i j a b Hi Hj Hij.
  - destruct i; discriminate.
  - destruct j as [|j]; [lia|]. simpl in Hj. destruct i as [|i].
    + simpl in Hi. injection Hi as <-. rewrite Forall_forall in Hall.
      apply Hall. now apply nth_error_In with j.
    + simpl in Hi. apply (IH i j); auto. lia.
Qed.

(** The dates on the two sides of a produced window. *)
Lemma produced_keys (df : list PriceBar) (eh xh : Z) (idx : nat)
    (w : TradeWindow) :
  produced_at (iter_daily_data df) eh xh idx w ->
  nth_error (group_keys df) idx = Some (signal_day w) /\
  nth_error (group_keys df) (S idx) = Some (trade_day w).
Proof.
  intros (sday & tday & first & dir & Hs & Ht & Hf & _ & Hb).
  destruct (iter_daily_data_nth _ _ _ Hs) as (k1 & Hk1 & _ & _ & Hd1).
  destruct (iter_daily_data_nth _ _ _ Ht) as (k2 & Hk2 & _ & _ & Hd2).
  destruct (build_trade_window_Some _ _ _ _ _ _ Hb)
    as (entry_row & wfirst & rest & _ & _ & Ew & ->).
  cbn [signal_day trade_day]. split.
  - rewrite Hk1. f_equal. symmetry. apply Hd1.
    destruct sday; [discriminate|]. injection Hf as ->. now left.
  - rewrite Hk2. f_equal. symmetry. apply Hd2.
    assert (In wfirst (filter (in_window eh xh) tday)) as Hin
      by (rewrite Ew; now left).
    now apply filter_In in Hin.
Qed.

(** X6.  Every returned window comes from two neighbouring days of the
    partition: the rows of the first are dated its signal day and give its
    direction as their signal, the rows of the second are dated its trade
    day, and all the rows of the window are rows of that second day.  The
    signal day is strictly before the trade day. *)
Theorem window_provenance (df : list PriceBar) (eh xh : Z)
    (ws : list TradeWindow) (w : TradeWindow) :
  generate_trade_windows df eh xh = Ok ws -> In w ws ->
  signal_day w < trade_day w /\
  exists idx signal_day_df trade_day_df,
    nth_error (iter_daily_data df) idx = Some signal_day_df /\
    nth_error (iter_daily_data df) (S idx) = Some trade_day_df /\
    (forall r, In r signal_day_df -> date r = signal_day w) /\
    (forall r, In r trade_day_df -> date r = trade_day w) /\
    determine_signal signal_day_df = Some (direction w) /\
    (forall r, In r (data w) -> In (bar r) trade_day_df).
Proof.
  intros Hgen Hw.
  destruct (generate_trade_windows_produced df eh xh) as (ws' & Hws' & Hin).
  assert (ws' = ws) as -> by congruence.
  destruct (Hin w Hw) as (idx & Hp).
  destruct (produced_keys _ _ _ _ _ Hp) as [Hk1 Hk2].
  split.
  - apply (sorted_lt_nth _ (group_keys_sorted df) idx (S idx)); auto.
  - destruct Hp as (sday & tday & first & dir & Hs & Ht & Hf & Hd & Hb).
    exists idx, sday, tday.
    destruct (iter_daily_data_nth _ _ _ Hs) as (k1 & Hk1' & _ & _ & Hd1).
    destruct (iter_daily_data_nth _ _ _ Ht) as (k2 & Hk2' & _ & _ & Hd2).
    assert (k1 = signal_day w) as -> by congruence.
    assert (k2 = trade_day w) as -> by congruence.
    destruct (build_trade_window_Some _ _ _ _ _ _ Hb)
      as (entry_row & wfirst & rest & _ & _ & Ew & Eq).
    repeat split; auto.
    + rewrite Eq. exact Hd.
    + intros r Hr. rewrite Eq in Hr. cbn [data] in Hr. rewrite <- Ew in Hr.
      apply in_map_iff in Hr. destruct Hr as (x & <- & Hx).
      apply filter_In in Hx. now destruct Hx.
Qed.

Lemma window_provenance_witness :
  signal_day complete_day_window < trade_day complete_day_window /\
  exists idx signal_day_df trade_day_df,
    nth_error (iter_daily_data complete_day_df) idx = Some signal_day_df /\
    nth_error (iter_daily_data complete_day_df) (S idx) = Some trade_day_df /\
    (forall r, In r signal_day_df -> date r = signal_day complete_day_window) /\
    (forall r, In r trade_day_df -> date r = trade_day complete_day_window) /\
    determine_signal signal_day_df = Some (direction complete_day_window) /\
    (forall r, In r (data complete_day_window) -> In (bar r) trade_day_df).
Proof.
  apply (window_provenance complete_day_df 11 21 [complete_day_window]
           complete_day_window eq_refl).
  now left.
Defined.

Lemma StronglySorted_snoc {A : Type} (R : A -> A -> Prop) (l : list A) (a : A) :
  StronglySorted R l -> (forall x, In x l -> R x a) ->
  StronglySorted R (l ++ [a]).
Proof.
  induction 1 as [|x l Hs IH Hall]; intro Ha; simpl.
  - constructor; constructor.
  - constructor.
    + apply IH. intros y Hy. apply Ha. now right.
    + apply Forall_app. split; [exact Hall|].
      constructor; [|constructor]. apply Ha. now left.
Qed.

Lemma StronglySorted_seq_lt (start len : nat) :
  StronglySorted lt (seq start len).
Proof.
  revert start. induction len as [|len IH]; intro start; simpl.
  - constructor.
  - constructor; [apply IH|]. apply Forall_forall.
    intros i Hi. apply in_seq in Hi. lia.
Qed.

Lemma for_each_ascending (df : list PriceBar) (eh xh : Z) (idxs : list nat) :
  forall acc ws,
    StronglySorted lt idxs ->
    (forall i, In i idxs -> (S i < List.length (iter_daily_data df))%nat) ->
    (forall w, In w acc ->
       exists j, (forall i, In i idxs -> (j < i)%nat) /\
                 produced_at (iter_daily_data df) eh xh j w) ->
    StronglySorted (fun a b => signal_day a < signal_day b) acc ->
    for_each (loop_body (iter_daily_data df) eh xh) idxs acc = Ok ws ->
    StronglySorted (fun a b => signal_day a < signal_day b) ws /\
    (List.length ws <= List.length acc + List.length idxs)%nat.
Proof.
  induction idxs as [|i idxs IH]; intros acc ws Hsorted Hrange Hacc Hs; simpl.
  - intros [= <-]. split; [exact Hs|lia].
  - inversion Hsorted as [|? ? Hsorted' Hlt]; subst.
    rewrite Forall_forall in Hlt.
    assert (Hne : forall day, In day (iter_daily_data df) -> day <> []).
    { intros day Hday. apply In_nth_error in Hday. destruct Hday as [n Hn].
      now destruct (iter_daily_data_nth _ _ _ Hn) as (k & _ & _ & Hne & _). }
    destruct (loop_body_step (iter_daily_data df) eh xh Hne acc i)
      as (acc' & -> & Hacc'); [apply Hrange; now left|].
    cbn [bind]. intro Hws.
    assert (Hold : forall w, In w acc ->
              exists j, (forall i', In i' idxs -> (j < i')%nat) /\
                        produced_at (iter_daily_data df) eh xh j w).
    { intros w Hw. destruct (Hacc w Hw) as (j & Hj & Hp).
      exists j. split; [|exact Hp]. intros i' Hi'. apply Hj. now right. }
    destruct Hacc' as [->|(w & -> & Hp)].
    + destruct (IH acc ws Hsorted') as [H1 H2]; auto.
      { intros j Hj. apply Hrange. now right. }
      split; [exact H1|lia].
    + destruct (IH (acc ++ [w]) ws Hsorted') as [H1 H2]; auto.
      * intros j Hj. apply Hrange. now right.
      * intros w' Hw'. apply in_app_or in Hw'.
        destruct Hw' as [Hw'|[<-|[]]]; [now apply Hold|].
        exists i. split; [|exact Hp]. intros i' Hi'. now apply Hlt.
      * apply StronglySorted_snoc; [exact Hs|].
        intros w' Hw'. destruct (Hacc w' Hw') as (j & Hj & Hp').
        destruct (produced_keys _ _ _ _ _ Hp') as [Hkj _].
        destruct (produced_keys _ _ _ _ _ Hp) as [Hki _].
        apply (sorted_lt_nth _ (group_keys_sorted df) j i); auto.
        apply Hj. now left.
      * split; [exact H1|]. rewrite length_app in H2. simpl in H2. lia.
Qed.

(** X7.  The windows are returned in strictly ascending order of signal
    day, so no two of them share a signal day, and there are at most as
    many of them as days in the partition less one. *)
Theorem windows_ascending (df : list PriceBar) (eh xh : Z)
    (ws : list TradeWindow) :
  generate_trade_windows df eh xh = Ok ws ->
  StronglySorted (fun a b => signal_day a < signal_day b) ws /\
  (List.length ws <= List.length (iter_daily_data df) - 1)%nat.
Proof.
  unfold generate_trade_windows. intro Hws.
  destruct (for_each_ascending df eh xh
              (seq 0 (List.length (iter_daily_data df) - 1)) [] ws)
    as [H1 H2]; auto.
  - apply StronglySorted_seq_lt.
  - intros i Hi. apply in_seq in Hi. lia.
  - intros w [].
  - constructor.
  - split; [exact H1|]. rewrite length_seq in H2. simpl in H2. lia.
Qed.

Lemma windows_ascending_witness :
  StronglySorted (fun a b => signal_day a < signal_day b)
                 [complete_day_window] /\
  (List.length [complete_day_window]
   <= List.length (iter_daily_data complete_day_df) - 1)%nat.
Proof.
  apply (windows_ascending complete_day_df 11 21 [complete_day_window]).
  reflexivity.
Defined.

(** *** The first and the last row of a window *)

Lemma sorted_around {A : Type} (R : A -> A -> Prop) (l1 l2 : list A) (a : A) :
  StronglySorted R (l1 ++ a :: l2) ->
  (forall x, In x l1 -> R x a) /\ (forall y, In y l2 -> R a y).
Proof.
  induction l1 as [|x l1 IH]; simpl; intro Hs.
  - inversion Hs as [|? ? _ Hall]; subst. rewrite Forall_forall in Hall.
    split; [intros x []|exact Hall].
  - inversion Hs as [|? ? Hs' Hall]; subst. rewrite Forall_forall in Hall.
    destruct (IH Hs') as [H1 H2]. split; [|exact H2].
    intros y [<-|Hy]; [|now apply H1].
    apply Hall. apply in_or_app. right. now left.
Qed.

Lemma filter_none {A : Type} (p : A -> bool) (l : list A) :
  (forall x, In x l -> p x = false) -> filter p l = [].
Proof.
  induction l as [|x l IH]; intro H; simpl; [reflexivity|].
  rewrite (H x) by now left. apply IH. intros y Hy. apply H. now right.
Qed.

Lemma last_in_tail {A : Type} (l1 l2 : list A) (a d : A) :
  In (last (l1 ++ a :: l2) d) (a :: l2).
Proof.
  induction l1 as [|x l1 IH]; simpl.
  - revert a. induction l2 as [|y l2 IH2]; intro a; [now left|].
    right. apply IH2.
  - destruct (l1 ++ a :: l2) eqn:E; [now destruct l1|exact IH].
Qed.

Lemma last_of_map {A B : Type} (f : A -> B) (l : list A) (d : A) :
  last (map f l) (f d) = f (last l d).
Proof.
  induction l as [|x l IH]; simpl; [reflexivity|].
  destruct l; [reflexivity|exact IH].
Qed.

(** On a day whose hours never decrease along the rows, the slice of a
    built window starts with the entry row and ends at the exit hour. *)
Lemma slice_boundaries (trade_df : list PriceBar) (eh xh : Z)
    (entry_row first : PriceBar) (rest : list PriceBar) :
  StronglySorted (fun a b => hour a <= hour b) trade_df ->
  first_at_hour eh trade_df entry_row ->
  ~ lacks_hour xh trade_df ->
  filter (in_window eh xh) trade_df = first :: rest ->
  first = entry_row /\ hour (last rest first) = xh.
Proof.
  intros Hs Hentry Hexit Ew.
  assert (Hle : eh <= xh).
  { assert (In first (filter (in_window eh xh) trade_df)) as Hin
      by (rewrite Ew; now left).
    apply filter_In in Hin. destruct Hin as [_ Hin].
    apply in_window_iff in Hin. lia. }
  split.
  - destruct Hentry as (before & after & -> & Hh & Hl).
    destruct (sorted_around _ _ _ _ Hs) as [Hb _].
    rewrite filter_app in Ew. rewrite filter_none in Ew.
    + simpl in Ew.
      assert (in_window eh xh entry_row = true) as Hin
        by (apply in_window_iff; lia).
      rewrite Hin in Ew. now injection Ew as <- _.
    + intros x Hx. specialize (Hb x Hx). specialize (Hl x Hx).
      destruct (in_window eh xh x) eqn:E; [|reflexivity].
      apply in_window_iff in E. lia.
  - destruct (filter (fun r => hour r =? xh) trade_df) as [|x xr] eqn:Ex.
    { apply filter_hour_lacks in Ex. contradiction. }
    assert (In x (filter (fun r => hour r =? xh) trade_df)) as Hx
      by (rewrite Ex; now left).
    apply filter_In in Hx. destruct Hx as [Hx Hhx]. apply Z.eqb_eq in Hhx.
    apply in_split in Hx. destruct Hx as (l1 & l2 & ->).
    destruct (sorted_around _ _ _ _ Hs) as [_ Ha].
    rewrite filter_app in Ew. simpl in Ew.
    assert (in_window eh xh x = true) as Hin by (apply in_window_iff; lia).
    rewrite Hin in Ew.
    assert (Hlast : In (last (first :: rest) first)
                       (x :: filter (in_window eh xh) l2)).
    { rewrite <- Ew. apply last_in_tail. }
    assert (Hsame : last (first :: rest) first = last rest first)
      by (destruct rest; reflexivity).
    rewrite Hsame in Hlast. destruct Hlast as [<-|Hlast]; [exact Hhx|].
    apply filter_In in Hlast. destruct Hlast as [Hl2 Hw].
    apply in_window_iff in Hw. specialize (Ha _ Hl2). lia.
Qed.

(** X8.  On a loaded frame, whatever the order among rows of equal
    timestamp, every returned window starts with the entry row and ends at
    the exit hour: its first row is at the entry hour,
    zero hours from entry, and opens at the entry price of the window; its
    last row is at the exit hour, exit hour minus entry hour from entry. *)
Theorem loaded_window_boundaries (tie_order : list CsvRow -> list CsvRow)
    (fs : FileSystem) (csv_path : string)
    (df : list PriceBar) (eh xh : Z) (ws : list TradeWindow)
    (w : TradeWindow) :
  load_price_data tie_order fs csv_path = Ok df ->
  generate_trade_windows df eh xh = Ok ws -> In w ws ->
  exists first rest,
    data w = first :: rest /\
    hour (bar first) = eh /\ hours_from_entry first = 0 /\
    open (bar first) = entry_price w /\
    hour (bar (last rest first)) = xh /\
    hours_from_entry (last rest first) = xh - eh.
Proof.
  intros Hload Hgen Hw.
  destruct (generate_trade_windows_produced df eh xh) as (ws' & Hws' & Hin).
  assert (ws' = ws) as -> by congruence.
  destruct (Hin w Hw) as (idx & sday & tday & f & dir & _ & Ht & _ & _ & Hb).
  assert (Hday : daily_series tday).
  { apply (loaded_days_are_daily_series tie_order fs csv_path df);
      [exact Hload|].
    now apply nth_error_In with (S idx). }
  apply daily_series_hours in Hday.
  destruct (build_trade_window_Some _ _ _ _ _ _ Hb)
    as (entry_row & wfirst & rest & Hentry & Hexit & Ew & ->).
  destruct (slice_boundaries _ _ _ _ _ _ Hday Hentry Hexit Ew) as [-> Hlast].
  destruct Hentry as (_ & _ & _ & Hh & _).
  eexists. eexists. cbn [data map]. split; [reflexivity|].
  cbn [annotate bar hours_from_entry entry_price].
  rewrite (last_of_map (annotate (date f) (date entry_row) dir
                          (open entry_row) eh)).
  cbn [annotate bar hours_from_entry]. rewrite Hlast.
  repeat split; auto; lia.
Qed.

Lemma loaded_window_boundaries_witness :
  exists first rest,
    data complete_day_window = first :: rest /\
    hour (bar first) = 11 /\ hours_from_entry first = 0 /\
    open (bar first) = entry_price complete_day_window /\
    hour (bar (last rest first)) = 21 /\
    hours_from_entry (last rest first) = 21 - 11.
Proof.
  apply (loaded_window_boundaries (fun l => l)
           (fun _ => Some {| columns := required;
                             rows := [mkCsvRow 82800 100 100 95 95;
                                      mkCsvRow 126000 101 102 101 102;
                                      mkCsvRow 162000 102 103 102 103] |})
           "prices.csv" complete_day_df 11 21 [complete_day_window]
           complete_day_window).
  - reflexivity.
  - reflexivity.
  - now left.
Defined.

(** *** The command *)

(** X9.  [main] rejects an entry or exit hour outside 0..23, or an exit
    hour before the entry hour, with [ValueError] before it touches the
    file system, whether or not the data file exists.  With accepted hours
    it fails exactly when the loader fails, with the loader's exception,
    and otherwise returns the windows generated from the loaded frame. *)
Theorem main_spec (tie_order : list CsvRow -> list CsvRow)
    (fs : FileSystem) (data_path : string) (eh xh : Z) :
  (~ (0 <= eh <= 23 /\ 0 <= xh <= 23 /\ eh <= xh) ->
   main tie_order fs data_path eh xh = Raise ValueError) /\
  (0 <= eh <= 23 -> 0 <= xh <= 23 -> eh <= xh ->
   (forall e, main tie_order fs data_path eh xh = Raise e <->
              load_price_data tie_order fs data_path = Raise e) /\
   (forall ws, main tie_order fs data_path eh xh = Ok ws <->
               exists df, load_price_data tie_order fs data_path = Ok df /\
                          generate_trade_windows df eh xh = Ok ws)).
Proof.
  unfold main. split.
  - intro Hbad.
    destruct ((0 <=? eh) && (eh <=? 23)) eqn:E1; [|reflexivity].
    destruct ((0 <=? xh) && (xh <=? 23)) eqn:E2; [|reflexivity].
    destruct (xh <? eh) eqn:E3; [reflexivity|].
    exfalso. apply Hbad.
    apply andb_true_iff in E1. apply andb_true_iff in E2.
    rewrite !Z.leb_le in E1, E2. apply Z.ltb_ge in E3. lia.
  - intros He Hx Hle.
    assert ((0 <=? eh) && (eh <=? 23) = true) as ->
      by (apply andb_true_iff; rewrite !Z.leb_le; lia).
    assert ((0 <=? xh) && (xh <=? 23) = true) as ->
      by (apply andb_true_iff; rewrite !Z.leb_le; lia).
    assert ((xh <? eh) = false) as -> by (apply Z.ltb_ge; lia).
    cbn [negb].
    destruct (load_price_data tie_order fs data_path) as [df|e0]; cbn [bind].
    + destruct (generate_trade_windows_produced df eh xh) as (ws0 & Hws0 & _).
      rewrite Hws0. split.
      * intro e. split; discriminate.
      * intro ws. split.
        -- intro H. exists df. split; [reflexivity|congruence].
        -- intros (df' & [= <-] & H). congruence.
    + split.
      * intro e. split; intros [= ->]; reflexivity.
      * intro ws. split; [discriminate|].
        intros (df & Hdf & _). discriminate.
Qed.

Lemma main_spec_witness :
  main (fun l => l) (fun _ => None) "prices.csv" 11 24 = Raise ValueError /\
  (main (fun l => l) prices_fs "missing.csv" 11 21
   = Raise FileNotFoundError <->
   load_price_data (fun l => l) prices_fs "missing.csv"
   = Raise FileNotFoundError).
Proof.
  split.
  - apply (proj1 (main_spec (fun l => l) (fun _ => None)
                      "prices.csv" 11 24)). lia.
  - apply (proj2 (main_spec (fun l => l) prices_fs "missing.csv" 11 21));
      lia.
Defined.

End GenerateTradesMore.

(** ** Further properties of analyze_trades.py *)

Module AnalyzeTradesMore.

Import AnalyzeTrades.
Import AnalyzeTradesSpec.

(** The fields of computed metrics, read off the two functions. *)
Lemma compute_fn_fields (dir : Direction) (first : WindowRow)
    (rest : list WindowRow) (m : TradeMetrics) :
  compute_fn dir (first :: rest) = Ok m ->
  let ep := col_entry_price first in
  let exit := close (bar (last rest first)) in
  let cmax := series_max (close (bar first)) (column close rest) in
  let hmax := series_max (high (bar first)) (column high rest) in
  let cmin := series_min (close (bar first)) (column close rest) in
  let lmin := series_min (low (bar first)) (column low rest) in
  ~ (ep == 0)%Q /\
  trade_day m = col_trade_day first /\
  signal_day m = col_signal_day first /\
  direction m = dir /\
  entry_price m = ep /\
  exit_price m = exit /\
  hours_captured m = S (List.length rest) /\
  final_return m
  = match dir with buy => (exit - ep)%Q | short => (ep - exit)%Q end /\
  max_return m
  = match dir with
    | buy => py_max 0 (py_max cmax hmax - ep)%Q
    | short => py_max 0 (ep - py_min cmin lmin)%Q
    end /\
  max_drawdown m
  = match dir with
    | buy => py_max 0 (ep - lmin)%Q
    | short => py_max 0 (py_max cmax hmax - ep)%Q
    end /\
  final_return_pct m = (final_return m / ep * 100)%Q /\
  max_return_pct m = (max_return m / ep * 100)%Q /\
  max_drawdown_pct m = (max_drawdown m / ep * 100)%Q.
Proof.
  destruct dir; unfold compute_fn; cbn [Direction_eqb];
    [unfold compute_buy_metrics|unfold compute_short_metrics];
    cbv beta iota zeta; unfold pct, py_div;
    destruct (Qeq_bool (col_entry_price first) 0) eqn:E; cbn [bind];
    try discriminate; intros [= <-]; apply Qeq_bool_neq in E;
    cbn; repeat split; auto.
Qed.

Lemma last_cons {A : Type} (l : list A) :
  forall x d, last (x :: l) d = last l x.
Proof.
  induction l as [|y l IH]; intros x d; [reflexivity|].
  change (last (x :: y :: l) d) with (last (y :: l) d).
  now rewrite !IH.
Qed.

Lemma last_In {A : Type} (l : list A) : forall d, In (last l d) (d :: l).
Proof.
  induction l as [|x l IH]; intro d; [now left|].
  rewrite last_cons. right. apply IH.
Qed.

(** *** Bounds on the final return *)

Lemma last_close_in_column (first : WindowRow) (rest : list WindowRow) :
  In (close (bar (last rest first))) (column close (first :: rest)).
Proof.
  unfold column. apply in_map_iff. exists (last rest first).
  split; [reflexivity|apply last_In].
Qed.

(** X10.  Computed metrics bracket the final return: it never exceeds the
    maximum return, and it is never below minus the maximum drawdown for a
    short window, nor for a buy window in which no bar closes below its
    low (the buy drawdown looks at the low column only). *)
Theorem final_return_bounds (dir : Direction) (df : list WindowRow)
    (m : TradeMetrics) :
  compute_fn dir df = Ok m ->
  (final_return m <= max_return m)%Q /\
  (dir = short -> (- max_drawdown m <= final_return m)%Q) /\
  ((forall r, In r df -> (low (bar r) <= close (bar r))%Q) ->
   (- max_drawdown m <= final_return m)%Q).
Proof.
  destruct df as [|first rest].
  { destruct dir; discriminate. }
  intro Hm. pose proof (compute_fn_fields _ _ _ _ Hm) as Hf.
  cbv zeta in Hf.
  destruct Hf as (_ & _ & _ & _ & _ & _ & _ & Hfin & Hret & Hdd & _).
  pose proof (last_close_in_column first rest) as Hexit.
  destruct (series_max_is_max (column close rest) (close (bar first)))
    as [_ Hcmax].
  destruct (series_min_is_min (column close rest) (close (bar first)))
    as [_ Hcmin].
  destruct (series_min_is_min (column low rest) (low (bar first)))
    as [_ Hlmin].
  specialize (Hcmax _ Hexit). specialize (Hcmin _ Hexit).
  set (exit := close (bar (last rest first))) in *.
  set (ep := col_entry_price first) in *.
  set (cmax := series_max (close (bar first)) (column close rest)) in *.
  set (hmax := series_max (high (bar first)) (column high rest)) in *.
  set (cmin := series_min (close (bar first)) (column close rest)) in *.
  set (lmin := series_min (low (bar first)) (column low rest)) in *.
  pose proof (py_max_ge_l cmax hmax) as Hmx.
  pose proof (py_min_le_l cmin lmin) as Hmn.
  rewrite Hfin, Hret, Hdd. destruct dir.
  - pose proof (py_max_ge_r 0 (py_max cmax hmax - ep)) as H1.
    pose proof (py_max_ge_r 0 (ep - lmin)) as H2.
    split; [lra|]. split; [discriminate|].
    intro Hwf.
    assert (Hlow : (lmin <= low (bar (last rest first)))%Q).
    { apply Hlmin. change (low (bar first) :: column low rest)
        with (column low (first :: rest)).
      unfold column. apply in_map_iff. exists (last rest first).
      split; [reflexivity|apply last_In]. }
    specialize (Hwf (last rest first) (last_In rest first)).
    fold exit in Hwf. lra.
  - pose proof (py_max_ge_r 0 (ep - py_min cmin lmin)) as H1.
    pose proof (py_max_ge_r 0 (py_max cmax hmax - ep)) as H2.
    split; [lra|]. split; intros _; lra.
Qed.

Lemma final_return_bounds_witness :
  exists m,
    compute_fn short [short_example_row] = Ok m /\
    (final_return m <= max_return m)%Q /\
    (- max_drawdown m <= final_return m)%Q.
Proof.
  eexists. split; [reflexivity|].
  destruct (final_return_bounds short [short_example_row] _ eq_refl)
    as (H1 & H2 & _).
  split; [exact H1|]. apply H2. reflexivity.
Defined.

(** Without the condition on the bars the lower bound can fail for a buy
    window: here the bar closes at 99 under a recorded low of 100. *)
Lemma buy_drawdown_misses_close :
  exists m,
    compute_fn buy [close_below_low_row] = Ok m /\
    (final_return m < - max_drawdown m)%Q.
Proof.
  eexists. split; [reflexivity|]. vm_compute. reflexivity.
Qed.

(** *** Signs of the percentages *)

Lemma pct_nonneg (v ep : Q) :
  (0 < ep)%Q -> ((0 <= v / ep * 100)%Q <-> (0 <= v)%Q).
Proof.
  intro Hep.
  assert (Hinv : (0 < / ep)%Q) by now apply Qinv_lt_0_compat.
  split; intro H.
  - assert (E : (v == (v / ep * 100) * (ep * (1 # 100)))%Q)
      by (field; lra).
    rewrite E. apply Qmult_le_0_compat; lra.
  - unfold Qdiv. apply Qmult_le_0_compat; [|lra].
    apply Qmult_le_0_compat; lra.
Qed.

(** X11.  With a positive entry price the two excursion percentages are
    not negative and the percentage final return has the sign of the
    final return. *)
Theorem percentages_signs (dir : Direction) (df : list WindowRow)
    (m : TradeMetrics) :
  compute_fn dir df = Ok m -> (0 < entry_price m)%Q ->
  (0 <= max_return_pct m)%Q /\ (0 <= max_drawdown_pct m)%Q /\
  ((0 <= final_return_pct m)%Q <-> (0 <= final_return m)%Q).
Proof.
  destruct df as [|first rest].
  { destruct dir; discriminate. }
  intros Hm Hep. pose proof (compute_fn_fields _ _ _ _ Hm) as Hf.
  cbv zeta in Hf.
  destruct Hf as (_ & _ & _ & _ & Hentry & _ & _ & _ & Hret & Hdd
                  & Hfp & Hrp & Hdp).
  rewrite Hentry in Hep. rewrite Hfp, Hrp, Hdp.
  split; [|split].
  - apply pct_nonneg; [exact Hep|]. rewrite Hret.
    destruct dir; apply py_max_ge_l.
  - apply pct_nonneg; [exact Hep|]. rewrite Hdd.
    destruct dir; apply py_max_ge_l.
  - now apply pct_nonneg.
Qed.

Lemma percentages_signs_witness :
  exists m,
    compute_fn short [short_example_row] = Ok m /\
    (0 <= max_return_pct m)%Q /\ (0 <= max_drawdown_pct m)%Q /\
    ((0 <= final_return_pct m)%Q <-> (0 <= final_return m)%Q).
Proof.
  eexists. split; [reflexivity|].
  apply (percentages_signs short [short_example_row]); reflexivity.
Defined.

(** *** Failures of the metrics computation *)

Lemma compute_fn_nonzero_entry (dir : Direction) (first : WindowRow)
    (rest : list WindowRow) :
  ~ (col_entry_price first == 0)%Q ->
  exists m, compute_fn dir (first :: rest) = Ok m.
Proof.
  intro E. destruct dir; unfold compute_fn; cbn [Direction_eqb];
    [unfold compute_buy_metrics|unfold compute_short_metrics];
    cbv beta iota zeta; rewrite !pct_Ok by exact E; cbn [bind];
    eexists; reflexivity.
Qed.

(** X12.  The metrics computation fails in two ways only: [IndexError]
    exactly on an empty window and [ZeroDivisionError] exactly on a
    non-empty window whose first row records an entry price of zero; on
    every other window it returns metrics. *)
Theorem compute_fn_failures (dir : Direction) (df : list WindowRow) :
  (compute_fn dir df = Raise IndexError <-> df = []) /\
  (compute_fn dir df = Raise ZeroDivisionError <->
   exists first rest, df = first :: rest /\ (col_entry_price first == 0)%Q) /\
  ((exists m, compute_fn dir df = Ok m) <->
   exists first rest, df = first :: rest /\ ~ (col_entry_price first == 0)%Q) /\
  compute_fn dir df <> Raise ValueError /\
  compute_fn dir df <> Raise FileNotFoundError.
Proof.
  destruct df as [|first rest].
  - rewrite compute_fn_empty. repeat split; try discriminate; auto.
    + intros (f & r & H & _). discriminate.
    + intros [m H]. discriminate.
    + intros (f & r & H & _). discriminate.
  - destruct (Qeq_bool (col_entry_price first) 0) eqn:E.
    + apply Qeq_bool_iff in E. rewrite (compute_fn_zero_entry dir first rest E).
      repeat split; try discriminate.
      * intros _. now exists first, rest.
      * intros [m H]. discriminate.
      * intros (f & r & [= <- <-] & Hnz). contradiction.
    + apply Qeq_bool_neq in E.
      destruct (compute_fn_nonzero_entry dir first rest E) as [m Hm].
      rewrite Hm.
      repeat split; try discriminate.
      * intros (f & r & [= <- <-] & Hz). contradiction.
      * intros _. now exists first, rest.
      * intros _. now exists m.
Qed.

(** *** From a built window to its metrics *)

(** X13.  The metrics computed from the rows of a built window, in the
    window's own direction, agree with the window: same trade day, signal
    day, direction and entry price, as many hours as rows, a final return
    equal to the price delta of the last row and a percentage final return
    equal to its percentage return.  They exist exactly when the entry
    price is not zero; at zero the window is built all the same and the
    computation raises [ZeroDivisionError]. *)
Theorem built_window_metrics (trade_df : list PriceBar) (sd : Z)
    (dir : Direction) (eh xh : Z) (w : GenerateTrades.TradeWindow) :
  GenerateTrades.build_trade_window trade_df sd dir eh xh = Some w ->
  ((GenerateTrades.entry_price w == 0)%Q ->
   compute_fn (GenerateTrades.direction w) (GenerateTrades.data w)
   = Raise ZeroDivisionError) /\
  (~ (GenerateTrades.entry_price w == 0)%Q ->
   exists m first rest,
     compute_fn (GenerateTrades.direction w) (GenerateTrades.data w) = Ok m /\
     GenerateTrades.data w = first :: rest /\
     trade_day m = GenerateTrades.trade_day w /\
     signal_day m = GenerateTrades.signal_day w /\
     direction m = GenerateTrades.direction w /\
     entry_price m = GenerateTrades.entry_price w /\
     hours_captured m = List.length (GenerateTrades.data w) /\
     final_return m = price_delta_from_entry (last rest first) /\
     return_pct_from_entry (last rest first) = Some (final_return_pct m)).
Proof.
  intro Hb.
  destruct (GenerateTradesSpec.build_trade_window_Some _ _ _ _ _ _ Hb)
    as (entry_row & wfirst & wrest & _ & _ & _ & ->).
  cbn [GenerateTrades.entry_price GenerateTrades.direction
       GenerateTrades.data GenerateTrades.trade_day
       GenerateTrades.signal_day map].
  set (ann := GenerateTrades.annotate sd (date wfirst) dir
                (open entry_row) eh).
  split.
  - intro Hz. now apply compute_fn_zero_entry.
  - intro Hnz.
    destruct (compute_fn_nonzero_entry dir (ann wfirst) (map ann wrest))
      as [m Hm]; [exact Hnz|].
    exists m, (ann wfirst), (map ann wrest).
    pose proof (compute_fn_fields _ _ _ _ Hm) as Hf. cbv zeta in Hf.
    destruct Hf as (_ & Htd & Hsd & Hdir & Hep & _ & Hh & Hfin & _ & _
                    & Hfp & _).
    split; [exact Hm|]. split; [reflexivity|].
    unfold ann in Htd, Hsd, Hep.
    cbn [GenerateTrades.annotate col_trade_day col_signal_day col_entry_price]
      in Htd, Hsd, Hep.
    split; [exact Htd|]. split; [exact Hsd|]. split; [exact Hdir|].
    split; [exact Hep|]. split; [simpl; now rewrite Hh|].
    rewrite Hfp, Hfin.
    rewrite (GenerateTradesMore.last_of_map ann wrest wfirst).
    unfold ann.
    cbn [GenerateTrades.annotate return_pct_from_entry col_entry_price bar
         price_delta_from_entry].
    split; [destruct dir; reflexivity|].
    unfold np_div. destruct (Qeq_bool (open entry_row) 0) eqn:E.
    + apply Qeq_bool_iff in E. contradiction.
    + destruct dir; reflexivity.
Qed.

Lemma built_window_metrics_witness :
  exists m first rest,
    compute_fn buy (GenerateTrades.data complete_day_window) = Ok m /\
    GenerateTrades.data complete_day_window = first :: rest /\
    trade_day m = 1 /\ signal_day m = 0 /\ direction m = buy /\
    entry_price m = 101%Q /\
    hours_captured m = 2%nat /\
    final_return m = price_delta_from_entry (last rest first) /\
    return_pct_from_entry (last rest first) = Some (final_return_pct m).
Proof.
  apply (proj2 (built_window_metrics
                  [bar_at 126000 101 102; bar_at 162000 102 103]
                  0 buy 11 21 complete_day_window eq_refl)).
  vm_compute. discriminate.
Defined.

(** *** Gathering the metrics of a folder *)

Lemma load_trade_csv_Ok (fs : TradeFiles) (path : string)
    (df : list WindowRow) :
  load_trade_csv fs path = Ok df -> df <> [].
Proof.
  unfold load_trade_csv. destruct (fs path) as [f|]; [|discriminate].
  destruct (trade_rows f) as [|r rs] eqn:E; [discriminate|].
  destruct (GenerateTrades.difference trade_required (trade_columns f));
    [|discriminate].
  intros [= <-]. discriminate.
Qed.

Lemma load_trade_csv_no_IndexError (fs : TradeFiles) (path : string) :
  load_trade_csv fs path <> Raise IndexError.
Proof.
  unfold load_trade_csv. destruct (fs path) as [f|]; [|discriminate].
  destruct (trade_rows f); [discriminate|].
  destruct (GenerateTrades.difference trade_required (trade_columns f));
    discriminate.
Qed.

Lemma compute_fn_IndexError (dir : Direction) (df : list WindowRow) :
  compute_fn dir df = Raise IndexError -> df = [].
Proof.
  destruct df as [|first rest]; [reflexivity|].
  destruct (Qeq_bool (col_entry_price first) 0) eqn:E.
  - apply Qeq_bool_iff in E. rewrite (compute_fn_zero_entry dir first rest E).
    discriminate.
  - apply Qeq_bool_neq in E.
    destruct (compute_fn_nonzero_entry dir first rest E) as [m ->].
    discriminate.
Qed.

Section GatherLoop.

Variable fs : TradeFiles.
Variable dir : Direction.

Lemma Forall2_In_l {A B : Type} (R : A -> B -> Prop) (l : list A)
    (l' : list B) (a : A) :
  Forall2 R l l' -> In a l -> exists b, In b l' /\ R a b.
Proof.
  induction 1 as [|x y l l' Hxy Hl IH]; intros []; subst.
  - exists y. split; [now left|exact Hxy].
  - destruct (IH H) as (b & Hb & Hab). exists b. split; [now right|exact Hab].
Qed.

Lemma Forall2_In_r {A B : Type} (R : A -> B -> Prop) (l : list A)
    (l' : list B) (b : B) :
  Forall2 R l l' -> In b l' -> exists a, In a l /\ R a b.
Proof.
  induction 1 as [|x y l l' Hxy Hl IH]; intros []; subst.
  - exists x. split; [now left|exact Hxy].
  - destruct (IH H) as (a & Ha & Hab). exists a. split; [now right|exact Hab].
Qed.

Lemma gather_loop (l : list string) :
  forall acc,
    match for_each
            (fun metrics path =>
               df <- load_trade_csv fs path ;;
               m <- compute_fn dir df ;;
               Ok (metrics ++ [m])) l acc with
    | Ok ms => exists new, ms = acc ++ new /\ Forall2 (measured fs dir) l new
    | Raise e =>
        exists p, In p l /\
          (load_trade_csv fs p = Raise e \/
           exists df, load_trade_csv fs p = Ok df /\
                      compute_fn dir df = Raise e)
    end.
Proof.
  induction l as [|p l IH]; intro acc; simpl.
  - exists []. split; [now rewrite app_nil_r|constructor].
  - destruct (load_trade_csv fs p) as [df|e] eqn:El; cbn [bind].
    2:{ exists p. split; [now left|now left]. }
    destruct (compute_fn dir df) as [m|e] eqn:Ec; cbn [bind].
    2:{ exists p. split; [now left|]. right. now exists df. }
    specialize (IH (acc ++ [m])).
    destruct (for_each _ l (acc ++ [m])) as [ms|e].
    + destruct IH as (new & -> & Hnew). exists (m :: new). split.
      * now rewrite <- app_assoc.
      * constructor; [now exists df|exact Hnew].
    + destruct IH as (q & Hq & Hfail). exists q. split; [now right|exact Hfail].
Qed.

End GatherLoop.

Lemma gather_Ok (sorted : list string -> list string) (fs : TradeFiles)
    (paths : list string) (dir : Direction) (ms : list TradeMetrics) :
  gather_trade_metrics sorted fs paths dir = Ok ms ->
  Forall2 (measured fs dir) (sorted paths) ms.
Proof.
  unfold gather_trade_metrics. cbv zeta. intro H.
  pose proof (gather_loop fs dir (sorted paths) []) as Hl.
  cbv zeta in Hl. rewrite H in Hl. now destruct Hl as (new & -> & Hnew).
Qed.

Lemma gather_Raise (sorted : list string -> list string) (fs : TradeFiles)
    (paths : list string) (dir : Direction) (e : exn) :
  gather_trade_metrics sorted fs paths dir = Raise e ->
  exists p, In p (sorted paths) /\
    (load_trade_csv fs p = Raise e \/
     exists df, load_trade_csv fs p = Ok df /\ compute_fn dir df = Raise e).
Proof.
  unfold gather_trade_metrics. cbv zeta. intro H.
  pose proof (gather_loop fs dir (sorted paths) []) as Hl.
  cbv zeta in Hl. now rewrite H in Hl.
Qed.

Lemma measured_fields (fs : TradeFiles) (dir : Direction) (p : string)
    (m : TradeMetrics) :
  measured fs dir p m -> direction m = dir /\ (1 <= hours_captured m)%nat.
Proof.
  intros (df & Hl & Hc). apply load_trade_csv_Ok in Hl.
  destruct df as [|first rest]; [contradiction|].
  pose proof (compute_fn_fields _ _ _ _ Hc) as Hf. cbv zeta in Hf.
  destruct Hf as (_ & _ & _ & Hd & _ & _ & Hh & _). split; [exact Hd|lia].
Qed.

Lemma gather_succeeds (sorted : list string -> list string)
    (fs : TradeFiles) (paths : list string) (dir : Direction) :
  (forall l, Permutation (sorted l) l) ->
  ((exists ms, gather_trade_metrics sorted fs paths dir = Ok ms) <->
   (forall p, In p paths -> exists m, measured fs dir p m)).
Proof.
  intro Hperm. split.
  - intros [ms Hms] p Hp. apply gather_Ok in Hms.
    apply (Permutation_in _ (Permutation_sym (Hperm paths))) in Hp.
    destruct (Forall2_In_l _ _ _ _ Hms Hp) as (m & _ & Hm).
    now exists m.
  - intro Hall.
    destruct (gather_trade_metrics sorted fs paths dir) as [ms|e] eqn:E;
      [now exists ms|].
    exfalso. apply gather_Raise in E.
    destruct E as (p & Hp & Hfail).
    apply (Permutation_in _ (Hperm paths)) in Hp.
    destruct (Hall p Hp) as (m & df & Hl & Hc).
    destruct Hfail as [Hfail|(df' & Hl' & Hc')]; congruence.
Qed.

(** X14.  With [sorted] rearranging its argument, gathering succeeds
    exactly when every path loads (the file exists, has rows and all the
    required columns) and its metrics compute.  It then returns one
    metrics record per path, in the order of the sorted paths, each
    labelled with the direction asked for, whatever the direction column
    of the file says, and capturing at least one hour.  Gathering never
    raises [IndexError]: an empty file is rejected by the loader first. *)
Theorem gather_trade_metrics_spec (sorted : list string -> list string)
    (fs : TradeFiles) (paths : list string) (dir : Direction) :
  (forall l, Permutation (sorted l) l) ->
  ((exists ms, gather_trade_metrics sorted fs paths dir = Ok ms) <->
   (forall p, In p paths -> exists m, measured fs dir p m)) /\
  (forall ms, gather_trade_metrics sorted fs paths dir = Ok ms ->
     Forall2 (measured fs dir) (sorted paths) ms /\
     List.length ms = List.length paths /\
     Forall (fun m => direction m = dir /\ (1 <= hours_captured m)%nat) ms) /\
  gather_trade_metrics sorted fs paths dir <> Raise IndexError.
Proof.
  intro Hperm. split; [|split].
  - now apply gather_succeeds.
  - intros ms Hms. apply gather_Ok in Hms. split; [exact Hms|]. split.
    + rewrite <- (Forall2_length Hms). apply Permutation_length, Hperm.
    + apply Forall_forall. intros m Hm.
      destruct (Forall2_In_r _ _ _ _ Hms Hm) as (p & _ & Hp).
      now apply measured_fields with fs p.
  - intro E. apply gather_Raise in E. destruct E as (p & _ & Hfail).
    destruct Hfail as [Hfail|(df & Hl & Hc)].
    + now apply load_trade_csv_no_IndexError in Hfail.
    + apply compute_fn_IndexError in Hc. apply load_trade_csv_Ok in Hl.
      contradiction.
Qed.

Lemma gather_trade_metrics_spec_witness :
  exists ms,
    gather_trade_metrics (fun l => l) one_trade_file
      ["short/trade_a.csv"%string] short = Ok ms.
Proof.
  apply (proj1 (gather_trade_metrics_spec (fun l => l) one_trade_file
                  ["short/trade_a.csv"%string] short
                  (fun l => Permutation_refl l))).
  intros p [<-|[]]. eexists. eexists. split; reflexivity.
Defined.

(** *** Summaries of computed metrics *)

Lemma computed_row_bounds (dir : Direction) (df : list WindowRow)
    (m : TradeMetrics) :
  compute_fn dir df = Ok m ->
  (0 <= max_return m)%Q /\ (0 <= max_drawdown m)%Q /\
  (final_return m <= max_return m)%Q.
Proof.
  destruct df as [|first rest].
  { destruct dir; discriminate. }
  intro Hm. pose proof (compute_fn_fields _ _ _ _ Hm) as Hf.
  cbv zeta in Hf.
  destruct Hf as (_ & _ & _ & _ & _ & _ & _ & Hfin & Hret & Hdd & _).
  rewrite Hfin, Hret, Hdd.
  pose proof (last_close_in_column first rest) as Hexit.
  destruct (series_max_is_max (column close rest) (close (bar first)))
    as [_ Hcmax].
  destruct (series_min_is_min (column close rest) (close (bar first)))
    as [_ Hcmin].
  specialize (Hcmax _ Hexit). specialize (Hcmin _ Hexit).
  destruct dir; (split; [apply py_max_ge_l|]); (split; [apply py_max_ge_l|]).
  - eapply Qle_trans; [|apply py_max_ge_r].
    pose proof (py_max_ge_l
                  (series_max (close (bar first)) (column close rest))
                  (series_max (high (bar first)) (column high rest))).
    lra.
  - eapply Qle_trans; [|apply py_max_ge_r].
    pose proof (py_min_le_l
                  (series_min (close (bar first)) (column close rest))
                  (series_min (low (bar first)) (column low rest))).
    lra.
Qed.

Lemma total_nonneg (xs : list Q) :
  Forall (fun x => (0 <= x)%Q) xs -> (0 <= total xs)%Q.
Proof.
  induction 1 as [|x xs Hx Hxs IH]; simpl; [apply Qle_refl|]. lra.
Qed.

Lemma total_le {A : Type} (f g : A -> Q) (l : list A) :
  Forall (fun a => (f a <= g a)%Q) l ->
  (total (map f l) <= total (map g l))%Q.
Proof.
  induction 1 as [|a l Ha Hl IH]; simpl; [apply Qle_refl|]. lra.
Qed.

Lemma count_positive (n : nat) : (0 < / inject_Z (Z.of_nat (S n)))%Q.
Proof.
  apply Qinv_lt_0_compat. unfold Qlt. simpl. lia.
Qed.

(** X15.  In the summary of metrics that were all computed from windows,
    the summed and the average maximum return and maximum drawdown are not
    negative, and the summed and the average final return do not exceed
    the summed and the average maximum return. *)
Theorem summary_of_computed (rows : list TradeMetrics) (dir : Direction)
    (s : DirectionSummary) :
  Forall (fun m => exists d df, compute_fn d df = Ok m) rows ->
  summarize_metrics rows dir = Ok s ->
  (0 <= sum_max_return s)%Q /\ (0 <= sum_max_drawdown s)%Q /\
  (sum_final_return s <= sum_max_return s)%Q /\
  (0 <= avg_max_return s)%Q /\ (0 <= avg_max_drawdown s)%Q /\
  (avg_final_return s <= avg_max_return s)%Q.
Proof.
  intros Hrows. unfold summarize_metrics. rewrite !average_Ok. cbn [bind].
  intros [= <-].
  cbn [sum_final_return sum_max_return sum_max_drawdown avg_final_return
       avg_max_return avg_max_drawdown].
  assert (Hret : (0 <= py_sum (map max_return rows))%Q).
  { rewrite py_sum_total. apply total_nonneg, Forall_map.
    eapply Forall_impl; [|exact Hrows].
    intros m (d & df & Hm). now apply (computed_row_bounds d df m). }
  assert (Hdd : (0 <= py_sum (map max_drawdown rows))%Q).
  { rewrite py_sum_total. apply total_nonneg, Forall_map.
    eapply Forall_impl; [|exact Hrows].
    intros m (d & df & Hm). now apply (computed_row_bounds d df m). }
  assert (Hfin : (py_sum (map final_return rows)
                  <= py_sum (map max_return rows))%Q).
  { rewrite !py_sum_total. apply total_le.
    eapply Forall_impl; [|exact Hrows].
    intros m (d & df & Hm). now apply (computed_row_bounds d df m). }
  split; [exact Hret|]. split; [exact Hdd|]. split; [exact Hfin|].
  destruct rows as [|r rows]; cbn [List.length Nat.eqb].
  - repeat split; apply Qle_refl.
  - pose proof (count_positive (List.length rows)) as Hn.
    unfold Qdiv. repeat split.
    + apply Qmult_le_0_compat; lra.
    + apply Qmult_le_0_compat; lra.
    + apply Qmult_le_compat_r; lra.
Qed.

Lemma summary_of_computed_witness :
  exists m s,
    compute_fn short [short_example_row] = Ok m /\
    summarize_metrics [m] short = Ok s /\
    (sum_final_return s <= sum_max_return s)%Q /\
    (avg_final_return s <= avg_max_return s)%Q.
Proof.
  eexists. eexists. split; [reflexivity|]. split; [reflexivity|].
  destruct (summary_of_computed _ short _
              (Forall_cons _
                 (ex_intro _ short (ex_intro _ [short_example_row] eq_refl))
                 (Forall_nil _))
              eq_refl) as (_ & _ & H3 & _ & _ & H6).
  split; [exact H3|exact H6].
Defined.

(** *** The command *)

Lemma summarize_metrics_Ok (rows : list TradeMetrics) (dir : Direction) :
  exists s,
    summarize_metrics rows dir = Ok s /\
    summary_direction s = dir /\ trade_count s = List.length rows.
Proof.
  unfold summarize_metrics. rewrite !average_Ok. cbn [bind].
  eexists. split; [reflexivity|]. split; reflexivity.
Qed.

(** X16.  With [sorted] rearranging its argument, [main] succeeds exactly
    when every file of the two folders loads and its metrics compute, and
    its summary table then has exactly two rows: the buy row first, the
    short row second, each counting the files of its folder.  With no
    file at all both rows are there with count 0 and averages 0. *)
Theorem main_summary_rows (sorted : list string -> list string)
    (fs : TradeFiles) (buy_paths short_paths : list string) :
  (forall l, Permutation (sorted l) l) ->
  ((exists rows, main sorted fs buy_paths short_paths = Ok rows) <->
   (forall p, In p buy_paths -> exists m, measured fs buy p m) /\
   (forall p, In p short_paths -> exists m, measured fs short p m)) /\
  (forall rows, main sorted fs buy_paths short_paths = Ok rows ->
     exists b s,
       rows = [b; s] /\
       summary_direction b = buy /\ summary_direction s = short /\
       trade_count b = List.length buy_paths /\
       trade_count s = List.length short_paths) /\
  (exists b s,
     main sorted fs [] [] = Ok [b; s] /\
     trade_count b = 0%nat /\ trade_count s = 0%nat /\
     avg_final_return b = 0%Q /\ avg_max_return b = 0%Q /\
     avg_max_drawdown b = 0%Q /\
     avg_final_return s = 0%Q /\ avg_max_return s = 0%Q /\
     avg_max_drawdown s = 0%Q).
Proof.
  intro Hperm.
  assert (Hlen : forall paths d ms,
            gather_trade_metrics sorted fs paths d = Ok ms ->
            List.length ms = List.length paths).
  { intros paths d ms Hms. apply gather_Ok in Hms.
    rewrite <- (Forall2_length Hms). apply Permutation_length, Hperm. }
  split; [|split].
  - unfold main. split.
    + intros [rows Hrows].
      destruct (gather_trade_metrics sorted fs buy_paths buy) as [bm|] eqn:Eb;
        [|discriminate].
      destruct (gather_trade_metrics sorted fs short_paths short)
        as [sm|] eqn:Es; [|discriminate].
      split.
      * apply (gather_succeeds sorted fs buy_paths buy Hperm). now exists bm.
      * apply (gather_succeeds sorted fs short_paths short Hperm).
        now exists sm.
    + intros [Hb Hs].
      apply (gather_succeeds sorted fs buy_paths buy Hperm) in Hb.
      apply (gather_succeeds sorted fs short_paths short Hperm) in Hs.
      destruct Hb as [bm ->]. destruct Hs as [sm ->]. cbn [bind].
      destruct (summarize_metrics_Ok bm buy) as (b & -> & _).
      destruct (summarize_metrics_Ok sm short) as (s' & -> & _).
      cbn [bind]. eexists. reflexivity.
  - intros rows. unfold main.
    destruct (gather_trade_metrics sorted fs buy_paths buy) as [bm|] eqn:Eb;
      [|discriminate].
    destruct (gather_trade_metrics sorted fs short_paths short)
      as [sm|] eqn:Es; [|discriminate].
    cbn [bind].
    destruct (summarize_metrics_Ok bm buy) as (b & -> & Hbd & Hbc).
    destruct (summarize_metrics_Ok sm short) as (s' & -> & Hsd & Hsc).
    cbn [bind]. intros [= <-]. exists b, s'.
    rewrite Hbc, Hsc, (Hlen _ _ _ Eb), (Hlen _ _ _ Es). auto.
  - unfold main, gather_trade_metrics. cbv zeta.
    assert (sorted [] = []) as ->
      by (apply Permutation_nil, Permutation_sym, Hperm).
    cbn. eexists. eexists. split; [reflexivity|]. cbn. repeat split.
Qed.

Lemma main_summary_rows_witness :
  exists b s,
    main (fun l => l) one_trade_file [] ["short/trade_a.csv"%string]
    = Ok [b; s] /\
    trade_count b = 0%nat /\ trade_count s = 1%nat.
Proof.
  destruct (proj1 (proj2 (main_summary_rows (fun l => l) one_trade_file
                            [] ["short/trade_a.csv"%string]
                            (fun l => Permutation_refl l)))
              _ eq_refl) as (b & s & E & _ & _ & Hb & Hs).
  injection E as <- <-. eexists. eexists.
  split; [reflexivity|]. split; [exact Hb|exact Hs].
Defined.

End AnalyzeTradesMore.

(** ** Properties of visualize_distribution.py *)

Module VisualizeDistributionSpec.

Import VisualizeDistribution.

Section Merge.

Variable Cells : Type.
Variable analysis_dir : AnalysisDir Cells.

Lemma read_side_frames (frames : list (list (MetricsRow Cells)))
    (side : string) :
  read_side Cells analysis_dir frames side
  = match analysis_dir (side ++ "_metrics.csv")%string with
    | None => Ok frames
    | Some file =>
        match metrics_columns file with
        | [] => Raise ValueError
        | _ :: _ => Ok (frames ++ [side_rows analysis_dir side])
        end
    end.
Proof.
  unfold read_side, side_rows, read_csv.
  destruct (analysis_dir (side ++ "_metrics.csv")%string) as [df|];
    [|reflexivity].
  destruct (metrics_columns df) as [|c cs] eqn:Ecols; [reflexivity|].
  cbn [bind]. rewrite Ecols. f_equal. f_equal.
  destruct (in_dec string_dec "direction"%string (c :: cs)) as [Hin|Hnin].
  - assert (existsb (String.eqb "direction") (c :: cs) = true) as ->.
    { apply existsb_exists. exists "direction"%string.
      split; [exact Hin|reflexivity]. }
    now rewrite andb_false_r.
  - assert (existsb (String.eqb "direction") (c :: cs) = false) as ->.
    { destruct (existsb (String.eqb "direction") (c :: cs)) eqn:E;
        [|reflexivity].
      apply existsb_exists in E. destruct E as (c' & Hc & Ec).
      apply String.eqb_eq in Ec. subst c'. contradiction. }
    destruct (metrics_rows df); reflexivity.
Qed.


End Merge.


End VisualizeDistributionSpec.
